(** * Slide-deck generators: a shallow embedding

    The repository holds three scripts that build a slide deck with the
    reportlab library:

    - [create_presentation.py]                (module [Presentation]),
    - [create_interactive_presentation.py]    (module [Interactive]),
    - [create_interactive_presentation_v2.py] (module [InteractiveV2]).

    Each script defines the same [NumberedCanvas] class (deferred page
    numbering) and a family of slide assemblers that append flowables to a
    shared [story] list.  The embedding keeps the Python names.

    Conventions.
    - A Python [str] is modelled by the byte string of its UTF-8 encoding, so
      the literals below are the bytes of the source files.
    - Lengths are Python floats in the scripts; they are exact rationals here
      ([Q]); no claim depends on rounding.
    - Classes of the reportlab library are data: building a [Paragraph],
      [Spacer], [Table] or [PageBreak] records its arguments, and the
      result of an assembler is what its own statements do.  What the
      constructor [Paragraph] does with its text when it is called (it
      collapses white space, parses the markup and raises [ValueError] on
      a parse error) is modelled apart, in module [Platypus], and
      [Outcome.outcome] puts the two together.  Layout and pagination are
      outside the repository and outside this development. *)

From stdpp Require Import base strings list gmap pretty.
From Stdlib Require Import Ascii String ZArith QArith.

Open Scope string_scope.
Open Scope list_scope.
Set Warnings "-register-all".

(** ** Python values and builtins *)

Module Py.

(** The dynamically typed values that reach the slide assemblers. *)
Inductive PyVal :=
| VStr (s : string)
| VInt (z : Z)
| VNone
| VTuple (items : list PyVal)
| VList (items : list PyVal).

Inductive Exn :=
| KeyError (key : string)
| IndexError
| TypeError
| ValueError.

Definition isinstance_str (v : PyVal) : bool :=
  match v with VStr _ => true | _ => false end.

Definition isinstance_tuple (v : PyVal) : bool :=
  match v with VTuple _ => true | _ => false end.

(** A double quote and a line feed, as one-character strings. *)
Definition dq : string := String "034"%char EmptyString.
Definition nl : string := String "010"%char EmptyString.

(** UTF-8 continuation bytes are [10xxxxxx]. *)
Definition is_continuation (a : ascii) : bool :=
  let n := nat_of_ascii a in (128 <=? n)%nat && (n <? 192)%nat.

(** The characters (code points) of a string, each as a one-character
    string: what iterating over a [str] yields. *)
Fixpoint chars (s : string) : list string :=
  match s with
  | EmptyString => []
  | String a s' =>
      match chars s' with
      | String b t :: cs =>
          if is_continuation b then String a (String b t) :: cs
          else String a EmptyString :: String b t :: cs
      | cs => String a EmptyString :: cs
      end
  end.

(** [v[i]] for a non-negative literal index. *)
Definition getitem (v : PyVal) (i : nat) : Exn + PyVal :=
  match v with
  | VTuple items | VList items =>
      match items !! i with Some x => inr x | None => inl IndexError end
  | VStr s =>
      match chars s !! i with Some c => inr (VStr c) | None => inl IndexError end
  | VInt _ | VNone => inl TypeError
  end.

(** The elements a [for] loop visits. *)
Definition iter (v : PyVal) : Exn + list PyVal :=
  match v with
  | VTuple items | VList items => inr items
  | VStr s => inr (VStr <$> chars s)
  | VInt _ | VNone => inl TypeError
  end.

(** [s.split(sep)] for a one-character separator: the pieces between the
    separators, of which there is always at least one. *)
Fixpoint split (sep : ascii) (s : string) : list string :=
  match s with
  | EmptyString => [EmptyString]
  | String a s' =>
      if Ascii.eqb a sep then EmptyString :: split sep s'
      else match split sep s' with
           | piece :: pieces => String a piece :: pieces
           | [] => [String a EmptyString]
           end
  end.

(** [s.replace(old, new)] for a one-character [old]. *)
Fixpoint replace (old : ascii) (new : string) (s : string) : string :=
  match s with
  | EmptyString => EmptyString
  | String a s' =>
      if Ascii.eqb a old then new +:+ replace old new s'
      else String a (replace old new s')
  end.

Section Format.
(** [str(v)] for a tuple or a list is Python's own ([repr] of the
    elements); it is taken as given. *)
Variable str_builtin : PyVal -> string.

(** What an f-string field [{v}] inserts: [format(v, '')], which for
    these values is [str(v)]. *)
Definition format (v : PyVal) : string :=
  match v with
  | VStr s => s
  | VInt z => pretty z
  | VNone => "None"
  | VTuple _ | VList _ => str_builtin v
  end.
End Format.

(** A computation that mutates a state [S] and may raise: the state after
    the call is kept also when an exception leaves it. *)
Definition Eff (S A : Type) : Type := S -> (Exn + A) * S.

Definition ret {S A} (a : A) : Eff S A := fun s => (inr a, s).

Definition raise {S A} (e : Exn) : Eff S A := fun s => (inl e, s).

Definition bind {S A B} (m : Eff S A) (k : A -> Eff S B) : Eff S B :=
  fun s =>
    match m s with
    | (inr a, s') => k a s'
    | (inl e, s') => (inl e, s')
    end.

Definition lift {S A} (r : Exn + A) : Eff S A :=
  match r with inr a => ret a | inl e => raise e end.

(** [for x in xs: body x]. *)
Fixpoint for_each {S A} (xs : list A) (body : A -> Eff S unit) : Eff S unit :=
  match xs with
  | [] => ret tt
  | x :: xs' => bind (body x) (fun _ => for_each xs' body)
  end.

End Py.

Declare Scope eff_scope.
Delimit Scope eff_scope with eff.
Notation "x <- m ;; k" := (Py.bind m (fun x => k))
  (at level 100, m at next level, right associativity) : eff_scope.
Notation "m ;; k" := (Py.bind m (fun _ => k))
  (at level 100, right associativity) : eff_scope.

(** ** reportlab data

    The flowables, styles and colours the scripts hand to the library. *)

Module ReportLab.

Definition inch : Q := 72.

(** [HexColor('#0076CE')]. *)
Inductive Color := HexColor (hex : string).

Inductive Alignment := TA_LEFT | TA_CENTER | TA_RIGHT.

(** The attributes of a paragraph style that the scripts set. *)
Record ParagraphStyle := {
  style_name : string;
  fontSize : Q;
  leading : Q;
  leftIndent : Q;
  rightIndent : Q;
  spaceBefore : Q;
  spaceAfter : Q;
  textColor : Color;
  backColor : option Color;
  alignment : Alignment
}.

(** An argument of a table-style command: a colour, a keyword or a
    number. *)
Inductive CmdArg :=
| ArgColor (c : Color)
| ArgStr (s : string)
| ArgNum (n : Z).

(** One command of a [TableStyle], such as
    [('VALIGN', (0, 0), (-1, -1), 'TOP')]. *)
Record TableCmd := {
  cmd : string;
  cell_from : Z * Z;
  cell_to : Z * Z;
  cmd_arg : CmdArg
}.

(** A flowable is recorded as the call that builds it: [Paragraph text
    style] is the call [Paragraph(text, style)] with the text as it was
    passed.  What the constructor makes of the text is
    [Platypus.Paragraph__init__], further down. *)
Inductive Flowable :=
| Spacer (width height : Q)
| Paragraph (text : string) (style : ParagraphStyle)
| PageBreak
| Table (data : list (list Flowable)) (colWidths : list Q)
        (tableStyle : list TableCmd).

(** A style sheet maps style names to styles; [styles[name]] raises
    [KeyError] for a name it does not hold (a [dict] puts the name in the
    exception, as here; reportlab's own [StyleSheet1] puts a message
    there). *)
Definition getitem_style (styles : gmap string ParagraphStyle) (name : string)
  : Py.Exn + ParagraphStyle :=
  match styles !! name with
  | Some st => inr st
  | None => inl (Py.KeyError name)
  end.

End ReportLab.

(** ** The renderer: [reportlab.pdfgen.canvas.Canvas] *)

Module Canvas.
Import ReportLab.

(** The drawing operators a page stream holds: those [draw_page_number]
    emits, and [OpOther] for whatever else the layout engine draws. *)
Inductive DrawOp :=
| OpStrokeColor (c : Color)
| OpLineWidth (w : Q)
| OpLine (x1 y1 x2 y2 : Q)
| OpFont (name : string) (size : Q)
| OpFillColor (c : Color)
| OpRightString (x y : Q) (text : string)
| OpOther (code : string).

(** A page of the output document and the document itself. *)
Record PDFPage := { stream : list DrawOp }.

Record PDFDocument := {
  Pages : list PDFPage;
  sealed : bool
}.

(** The part of [self.__dict__] that a snapshot [dict(self.__dict__)] holds
    by value: the page counter, the operators of the page being drawn and
    the graphics state. *)
Record Attrs := {
  _pageNumber : Z;
  _code : list DrawOp;
  _strokeColorObj : Color;
  _lineWidth : Q;
  _fontname : string;
  _fontsize : Q;
  _fillColorObj : Color
}.

(** A canvas object.  [_saved_page_states] and [_doc] are attributes too,
    but they refer to one list object and one document object for the
    whole life of the canvas: every snapshot refers to these same two
    objects, so restoring a snapshot leaves them as they are.  They are
    therefore kept beside the by-value attributes and not inside them. *)
Record Canvas := {
  dict : Attrs;
  _saved_page_states : list Attrs;
  _doc : PDFDocument
}.

(** Rebinding the by-value attributes of [self]. *)
Definition set_dict (self : Canvas) (d : Attrs) : Canvas :=
  {| dict := d;
     _saved_page_states := _saved_page_states self;
     _doc := _doc self |}.

(** [self._code.append(op)]. *)
Definition code_append (self : Canvas) (op : DrawOp) : Canvas :=
  let d := dict self in
  set_dict self
    {| _pageNumber := _pageNumber d;
       _code := _code d ++ [op];
       _strokeColorObj := _strokeColorObj d;
       _lineWidth := _lineWidth d;
       _fontname := _fontname d;
       _fontsize := _fontsize d;
       _fillColorObj := _fillColorObj d |}.

(** Modelled from the spec: the base class [canvas.Canvas] belongs to the
    reportlab library and is not among the repository's sources.  Its
    setters, such as [setStrokeColor], record the new graphics state and
    emit one operator into the page being drawn. *)
Definition setStrokeColor (self : Canvas) (c : Color) : Canvas :=
  let d := dict self in
  code_append
    (set_dict self
       {| _pageNumber := _pageNumber d;
          _code := _code d;
          _strokeColorObj := c;
          _lineWidth := _lineWidth d;
          _fontname := _fontname d;
          _fontsize := _fontsize d;
          _fillColorObj := _fillColorObj d |})
    (OpStrokeColor c).

(** Modelled from the spec: [setLineWidth] of the library, as above. *)
Definition setLineWidth (self : Canvas) (w : Q) : Canvas :=
  let d := dict self in
  code_append
    (set_dict self
       {| _pageNumber := _pageNumber d;
          _code := _code d;
          _strokeColorObj := _strokeColorObj d;
          _lineWidth := w;
          _fontname := _fontname d;
          _fontsize := _fontsize d;
          _fillColorObj := _fillColorObj d |})
    (OpLineWidth w).

(** Modelled from the spec: [setFont] of the library, as above. *)
Definition setFont (self : Canvas) (name : string) (size : Q) : Canvas :=
  let d := dict self in
  code_append
    (set_dict self
       {| _pageNumber := _pageNumber d;
          _code := _code d;
          _strokeColorObj := _strokeColorObj d;
          _lineWidth := _lineWidth d;
          _fontname := name;
          _fontsize := size;
          _fillColorObj := _fillColorObj d |})
    (OpFont name size).

(** Modelled from the spec: [setFillColor] of the library, as above. *)
Definition setFillColor (self : Canvas) (c : Color) : Canvas :=
  let d := dict self in
  code_append
    (set_dict self
       {| _pageNumber := _pageNumber d;
          _code := _code d;
          _strokeColorObj := _strokeColorObj d;
          _lineWidth := _lineWidth d;
          _fontname := _fontname d;
          _fontsize := _fontsize d;
          _fillColorObj := c |})
    (OpFillColor c).

(** Modelled from the spec: [line] and [drawRightString] of the library
    leave the graphics state alone and emit one operator. *)
Definition line (self : Canvas) (x1 y1 x2 y2 : Q) : Canvas :=
  code_append self (OpLine x1 y1 x2 y2).

Definition drawRightString (self : Canvas) (x y : Q) (text : string) : Canvas :=
  code_append self (OpRightString x y text).

(** Modelled from the spec: [_startPage] of the library resets the renderer
    to a blank page (no operators, initial graphics state) and moves the
    page counter to the next page. *)
Definition _startPage (self : Canvas) : Canvas :=
  set_dict self
    {| _pageNumber := _pageNumber (dict self) + 1;
       _code := [];
       _strokeColorObj := HexColor "#000000";
       _lineWidth := 1;
       _fontname := "Helvetica";
       _fontsize := 12;
       _fillColorObj := HexColor "#000000" |}.

(** Modelled from the spec: [Canvas.showPage] of the library commits the
    page being drawn to the output document and starts the next page. *)
Definition showPage (self : Canvas) : Canvas :=
  _startPage
    {| dict := dict self;
       _saved_page_states := _saved_page_states self;
       _doc := {| Pages := Pages (_doc self) ++ [{| stream := _code (dict self) |}];
                  sealed := sealed (_doc self) |} |}.

(** Modelled from the spec: [Canvas.save] of the library seals the output.
    When operators are pending on the current page it first calls
    [self.showPage()], which is the method of the subclass. *)
Definition save (self_showPage : Canvas -> Canvas) (self : Canvas) : Canvas :=
  let self :=
    match _code (dict self) with
    | [] => self
    | _ :: _ => self_showPage self
    end in
  {| dict := dict self;
     _saved_page_states := _saved_page_states self;
     _doc := {| Pages := Pages (_doc self); sealed := true |} |}.

(** Modelled from the spec: [Canvas.__init__] of the library: first page,
    nothing drawn, empty document. *)
Definition __init__ : Canvas :=
  {| dict := {| _pageNumber := 1;
                _code := [];
                _strokeColorObj := HexColor "#000000";
                _lineWidth := 1;
                _fontname := "Helvetica";
                _fontsize := 12;
                _fillColorObj := HexColor "#000000" |};
     _saved_page_states := [];
     _doc := {| Pages := []; sealed := false |} |}.

End Canvas.

(** ** [NumberedCanvas]

    The class is the same in the three scripts, line for line (the first
    script has two comments more). *)

Module NumberedCanvas.
Import ReportLab Canvas.

(** The page is 11 by 6.1875 inches (16:9). *)
Definition PAGESIZE : Q * Q := (11.0 * inch, 6.1875 * inch)%Q.

Definition PRIMARY_BLUE : Color := HexColor "#0076CE".
Definition MED_GRAY : Color := HexColor "#999999".

(** [canvas.Canvas.__init__(self, ...); self._saved_page_states = []]. *)
Definition __init__ : Canvas :=
  {| dict := dict Canvas.__init__;
     _saved_page_states := [];
     _doc := _doc Canvas.__init__ |}.

(** [self._saved_page_states.append(dict(self.__dict__)); self._startPage()]. *)
Definition showPage (self : Canvas) : Canvas :=
  _startPage
    {| dict := dict self;
       _saved_page_states := _saved_page_states self ++ [dict self];
       _doc := _doc self |}.

(** ["Page %d of %d" % (self._pageNumber, page_count)]. *)
Definition page_text (pageNumber page_count : Z) : string :=
  "Page " +:+ pretty pageNumber +:+ " of " +:+ pretty page_count.

(** The footer: a rule across the page and, right-aligned under it, the
    page number and the page count. *)
Definition draw_page_number (self : Canvas) (page_count : Z) : Canvas :=
  let self := setStrokeColor self PRIMARY_BLUE in
  let self := setLineWidth self 2 in
  let self := line self (0.5 * inch) (0.4 * inch)
                        (PAGESIZE.1 - 0.5 * inch) (0.4 * inch) in
  let self := setFont self "Helvetica" 9 in
  let self := setFillColor self MED_GRAY in
  let page := page_text (_pageNumber (dict self)) page_count in
  drawRightString self (PAGESIZE.1 - 0.5 * inch) (0.25 * inch) page.

(** [self.__dict__.update(state)]: every attribute of the snapshot is
    restored; the list of snapshots and the document are the same objects
    before and after. *)
Definition dict_update (self : Canvas) (state : Attrs) : Canvas :=
  set_dict self state.

(** One turn of the loop of [save]: restore the snapshot, draw the footer
    with the total, commit the page.  (The footer goes into the operator
    list the snapshot refers to; a snapshot is not read again once its page
    is committed, and the model keeps the list of snapshots as captured.) *)
Definition replay (num_pages : Z) (self : Canvas) (state : Attrs) : Canvas :=
  let self := dict_update self state in
  let self := draw_page_number self num_pages in
  Canvas.showPage self.

(** [save]: the total is read once, before the loop over the snapshots. *)
Definition save (self : Canvas) : Canvas :=
  let num_pages := Z.of_nat (List.length (_saved_page_states self)) in
  let self := foldl (replay num_pages) self (_saved_page_states self) in
  Canvas.save showPage self.

(** What the layout engine does with the canvas while it lays the story
    out: it draws, and it signals the end of each page. *)
Inductive Call :=
| Draw (op : DrawOp)
| ShowPage.

(** The drawing call that emits [op]. *)
Definition draw (self : Canvas) (op : DrawOp) : Canvas :=
  match op with
  | OpStrokeColor c => setStrokeColor self c
  | OpLineWidth w => setLineWidth self w
  | OpLine x1 y1 x2 y2 => line self x1 y1 x2 y2
  | OpFont name size => setFont self name size
  | OpFillColor c => setFillColor self c
  | OpRightString x y text => drawRightString self x y text
  | OpOther _ => code_append self op
  end.

(** The calls reach the canvas object, hence [showPage] of the subclass. *)
Definition call (self : Canvas) (c : Call) : Canvas :=
  match c with
  | Draw op => draw self op
  | ShowPage => showPage self
  end.

Definition run (calls : list Call) (self : Canvas) : Canvas :=
  foldl call self calls.

(** The operators [draw_page_number] adds to page [pageNumber] of
    [page_count]. *)
Definition footer (pageNumber page_count : Z) : list DrawOp :=
  [ OpStrokeColor PRIMARY_BLUE;
    OpLineWidth 2;
    OpLine (0.5 * inch) (0.4 * inch) (PAGESIZE.1 - 0.5 * inch) (0.4 * inch);
    OpFont "Helvetica" 9;
    OpFillColor MED_GRAY;
    OpRightString (PAGESIZE.1 - 0.5 * inch) (0.25 * inch)
                  (page_text pageNumber page_count) ].

(** The text a committed page shows in its footer: the string its last
    operator draws. *)
Definition footer_text (p : PDFPage) : option string :=
  match last (stream p) with
  | Some (OpRightString _ _ text) => Some text
  | _ => None
  end.

(** The page [save] commits for a snapshot: what was drawn on the page
    when it was captured, then the footer. *)
Definition replayed (num_pages : Z) (state : Attrs) : PDFPage :=
  {| stream := _code state ++ footer (_pageNumber state) num_pages |}.

(** The number of page-complete signals among the calls. *)
Fixpoint count_pages (calls : list Call) : nat :=
  match calls with
  | [] => 0
  | Draw _ :: calls' => count_pages calls'
  | ShowPage :: calls' => S (count_pages calls')
  end.

(** What the calls draw on each completed page, page by page; [current]
    is what is already drawn on the page in progress. *)
Fixpoint captured (current : list DrawOp) (calls : list Call)
  : list (list DrawOp) :=
  match calls with
  | [] => []
  | Draw op :: calls' => captured (current ++ [op]) calls'
  | ShowPage :: calls' => current :: captured [] calls'
  end.

(** The canvas while the story is laid out: nothing committed, nothing
    sealed, and the snapshots and the page in progress numbered from 1. *)
Definition accumulating (self : Canvas) : Prop :=
  Pages (_doc self) = [] /\
  sealed (_doc self) = false /\
  _pageNumber (dict self) =
    Z.of_nat (S (List.length (_saved_page_states self))) /\
  _pageNumber <$> _saved_page_states self =
    Z.of_nat <$> seq 1 (List.length (_saved_page_states self)).

End NumberedCanvas.

(** ** Markup and story helpers shared by the three scripts *)

Module Markup.
Import Py.

(** [<font color="COLOR" size="SIZE">BODY</font>]. *)
Definition font (color : string) (size : Z) (body : string) : string :=
  "<font color=" +:+ dq +:+ color +:+ dq +:+ " size=" +:+ dq +:+ pretty size
    +:+ dq +:+ ">" +:+ body +:+ "</font>".

(** [<font color="COLOR" size="SIZE" face="FACE">BODY</font>]. *)
Definition font_face (color : string) (size : Z) (face : string)
    (body : string) : string :=
  "<font color=" +:+ dq +:+ color +:+ dq +:+ " size=" +:+ dq +:+ pretty size
    +:+ dq +:+ " face=" +:+ dq +:+ face +:+ dq +:+ ">" +:+ body +:+ "</font>".

Definition bold (body : string) : string := "<b>" +:+ body +:+ "</b>".

End Markup.

Module Story.
Import Py ReportLab.

(** [story.append(x)] on the list object the caller passed. *)
Definition append (x : Flowable) : Eff (list Flowable) unit :=
  fun story => (inr tt, story ++ [x]).

(** [styles[name]]. *)
Definition style {S} (styles : gmap string ParagraphStyle) (name : string)
  : Eff S ParagraphStyle :=
  lift (getitem_style styles name).

End Story.

(** ** [create_presentation.py] *)

Module Presentation.
Import Py ReportLab Markup Story.
Local Open Scope eff_scope.

Definition PRIMARY_BLUE : Color := HexColor "#0076CE".
Definition WHITE : Color := HexColor "#FFFFFF".

Definition create_title_slide (styles : gmap string ParagraphStyle)
  : Eff (list Flowable) unit :=
  append (Spacer 1 (1.5 * inch)) ;;
  st <- style styles "Title" ;;
  let title := Paragraph (font "#003E7E" 48 (bold "Claude Code")) st in
  append title ;;
  append (Spacer 1 (0.2 * inch)) ;;
  st <- style styles "Title" ;;
  let subtitle := Paragraph (font "#0076CE" 32 "Tutorial & Best Practices") st in
  append subtitle ;;
  append (Spacer 1 (0.3 * inch)) ;;
  st <- style styles "Title" ;;
  let desc :=
    Paragraph (font "#5B5B5B" 16 "AI-First Development for Modern Software Teams")
              st in
  append desc ;;
  append PageBreak.

Definition create_section_slide (styles : gmap string ParagraphStyle)
    (title : string) : Eff (list Flowable) unit :=
  append (Spacer 1 (1.8 * inch)) ;;
  parent <- style styles "Normal" ;;
  let section_text :=
    Paragraph (font "#FFFFFF" 38 (bold title))
      {| style_name := "SectionContent";
         fontSize := 38;
         leading := 48;
         leftIndent := leftIndent parent;
         rightIndent := rightIndent parent;
         spaceBefore := 30;
         spaceAfter := 30;
         textColor := WHITE;
         backColor := backColor parent;
         alignment := TA_CENTER |} in
  let data := [[section_text]] in
  let table :=
    Table data [9.5 * inch]
      [ {| cmd := "BACKGROUND"; cell_from := (0, 0)%Z; cell_to := (-1, -1)%Z;
           cmd_arg := ArgColor PRIMARY_BLUE |};
        {| cmd := "ALIGN"; cell_from := (0, 0)%Z; cell_to := (-1, -1)%Z;
           cmd_arg := ArgStr "CENTER" |};
        {| cmd := "VALIGN"; cell_from := (0, 0)%Z; cell_to := (-1, -1)%Z;
           cmd_arg := ArgStr "MIDDLE" |};
        {| cmd := "TOPPADDING"; cell_from := (0, 0)%Z; cell_to := (-1, -1)%Z;
           cmd_arg := ArgNum 40 |};
        {| cmd := "BOTTOMPADDING"; cell_from := (0, 0)%Z; cell_to := (-1, -1)%Z;
           cmd_arg := ArgNum 40 |};
        {| cmd := "LEFTPADDING"; cell_from := (0, 0)%Z; cell_to := (-1, -1)%Z;
           cmd_arg := ArgNum 20 |};
        {| cmd := "RIGHTPADDING"; cell_from := (0, 0)%Z; cell_to := (-1, -1)%Z;
           cmd_arg := ArgNum 20 |} ] in
  append table ;;
  append PageBreak.

Section WithBuiltins.
Variable str_builtin : PyVal -> string.

(** The body of the loop [for item in content_items]. *)
Definition content_item (styles : gmap string ParagraphStyle) (item : PyVal)
  : Eff (list Flowable) unit :=
  if isinstance_str item then
    st <- style styles "BodyText" ;;
    let p := Paragraph (font "#5B5B5B" 14 ("• " +:+ format str_builtin item))
                       st in
    append p ;;
    append (Spacer 1 (0.15 * inch))
  else if isinstance_tuple item then
    head <- lift (getitem item 0) ;;
    st <- style styles "BodyText" ;;
    let p := Paragraph (font "#5B5B5B" 14 (bold (format str_builtin head))) st in
    append p ;;
    append (Spacer 1 (0.1 * inch)) ;;
    subs <- lift (getitem item 1) ;;
    subs <- lift (iter subs) ;;
    for_each subs (fun sub =>
      st <- style styles "BodyText" ;;
      let sp := Paragraph (font "#666666" 12 ("   ◦ " +:+ format str_builtin sub))
                          st in
      append sp ;;
      append (Spacer 1 (0.08 * inch))) ;;
    append (Spacer 1 (0.1 * inch))
  else ret tt.

Definition create_content_slide (styles : gmap string ParagraphStyle)
    (title : string) (content_items : list PyVal)
  : Eff (list Flowable) unit :=
  st <- style styles "Heading1" ;;
  let slide_title := Paragraph (font "#003E7E" 28 (bold title)) st in
  append slide_title ;;
  append (Spacer 1 (0.3 * inch)) ;;
  for_each content_items (content_item styles) ;;
  append PageBreak.

Definition create_two_column_slide (styles : gmap string ParagraphStyle)
    (title left_title : string) (left_items : list PyVal)
    (right_title : string) (right_items : list PyVal)
  : Eff (list Flowable) unit :=
  st <- style styles "Heading1" ;;
  let slide_title := Paragraph (font "#003E7E" 28 (bold title)) st in
  append slide_title ;;
  append (Spacer 1 (0.3 * inch)) ;;
  let left_content :=
    foldl (fun left_content item =>
             left_content +:+
             font "#5B5B5B" 12 ("✓ " +:+ format str_builtin item)
             +:+ "<br/><br/>")
          (font "#0076CE" 16 (bold left_title) +:+ "<br/><br/>")
          left_items in
  let right_content :=
    foldl (fun right_content item =>
             right_content +:+
             font "#5B5B5B" 12 ("• " +:+ format str_builtin item)
             +:+ "<br/><br/>")
          (font "#0076CE" 16 (bold right_title) +:+ "<br/><br/>")
          right_items in
  st_left <- style styles "BodyText" ;;
  st_right <- style styles "BodyText" ;;
  let data := [[ Paragraph left_content st_left;
                 Paragraph right_content st_right ]] in
  let table :=
    Table data [4.5 * inch; 4.5 * inch]
      [ {| cmd := "VALIGN"; cell_from := (0, 0)%Z; cell_to := (-1, -1)%Z;
           cmd_arg := ArgStr "TOP" |};
        {| cmd := "LEFTPADDING"; cell_from := (0, 0)%Z; cell_to := (-1, -1)%Z;
           cmd_arg := ArgNum 20 |};
        {| cmd := "RIGHTPADDING"; cell_from := (0, 0)%Z; cell_to := (-1, -1)%Z;
           cmd_arg := ArgNum 20 |} ] in
  append table ;;
  append PageBreak.
End WithBuiltins.

End Presentation.

(** ** [create_interactive_presentation.py] *)

Module Interactive.
Import Py ReportLab Markup Story.
Local Open Scope eff_scope.

Definition PRIMARY_BLUE : Color := HexColor "#0076CE".
Definition LIGHT_GRAY : Color := HexColor "#E5E5E5".
Definition WHITE : Color := HexColor "#FFFFFF".

Definition create_title_slide (styles : gmap string ParagraphStyle)
  : Eff (list Flowable) unit :=
  append (Spacer 1 (1.5 * inch)) ;;
  st <- style styles "Title" ;;
  let title := Paragraph (font "#003E7E" 48 (bold "Claude Code")) st in
  append title ;;
  append (Spacer 1 (0.2 * inch)) ;;
  st <- style styles "Title" ;;
  let subtitle :=
    Paragraph (font "#0076CE" 32 "Interactive Tutorial & Workshop") st in
  append subtitle ;;
  append (Spacer 1 (0.3 * inch)) ;;
  st <- style styles "Title" ;;
  let desc :=
    Paragraph (font "#5B5B5B" 16 "AI-First Development for Modern Software Teams")
              st in
  append desc ;;
  append (Spacer 1 (0.5 * inch)) ;;
  st <- style styles "Title" ;;
  let footer :=
    Paragraph (font "#999999" 12 "https://github.com/emmanuelandre/claude-tutorial")
              st in
  append footer ;;
  append PageBreak.

Definition create_section_slide (styles : gmap string ParagraphStyle)
    (title : string) : Eff (list Flowable) unit :=
  append (Spacer 1 (1.8 * inch)) ;;
  parent <- style styles "Normal" ;;
  let section_text :=
    Paragraph (font "#FFFFFF" 38 (bold title))
      {| style_name := "SectionContent";
         fontSize := 38;
         leading := 48;
         leftIndent := leftIndent parent;
         rightIndent := rightIndent parent;
         spaceBefore := 30;
         spaceAfter := 30;
         textColor := WHITE;
         backColor := backColor parent;
         alignment := TA_CENTER |} in
  let data := [[section_text]] in
  let table :=
    Table data [9.5 * inch]
      [ {| cmd := "BACKGROUND"; cell_from := (0, 0)%Z; cell_to := (-1, -1)%Z;
           cmd_arg := ArgColor PRIMARY_BLUE |};
        {| cmd := "ALIGN"; cell_from := (0, 0)%Z; cell_to := (-1, -1)%Z;
           cmd_arg := ArgStr "CENTER" |};
        {| cmd := "VALIGN"; cell_from := (0, 0)%Z; cell_to := (-1, -1)%Z;
           cmd_arg := ArgStr "MIDDLE" |};
        {| cmd := "TOPPADDING"; cell_from := (0, 0)%Z; cell_to := (-1, -1)%Z;
           cmd_arg := ArgNum 40 |};
        {| cmd := "BOTTOMPADDING"; cell_from := (0, 0)%Z; cell_to := (-1, -1)%Z;
           cmd_arg := ArgNum 40 |} ] in
  append table ;;
  append PageBreak.

Definition create_hands_on_slide (styles : gmap string ParagraphStyle)
    (title prompt expected_result : string) : Eff (list Flowable) unit :=
  st <- style styles "Heading1" ;;
  let slide_title :=
    Paragraph (font "#003E7E" 28 (bold ("ðŸ”¨ Hands-On: " +:+ title))) st in
  append slide_title ;;
  append (Spacer 1 (0.3 * inch)) ;;
  st <- style styles "BodyText" ;;
  let instruction := Paragraph (font "#0076CE" 16 (bold "YOUR PROMPT:")) st in
  append instruction ;;
  append (Spacer 1 (0.15 * inch)) ;;
  parent <- style styles "BodyText" ;;
  let prompt_text :=
    Paragraph (font_face "#5B5B5B" 12 "Courier" prompt)
      {| style_name := "Code";
         fontSize := fontSize parent;
         leading := leading parent;
         leftIndent := 20;
         rightIndent := rightIndent parent;
         spaceBefore := spaceBefore parent;
         spaceAfter := spaceAfter parent;
         textColor := textColor parent;
         backColor := Some LIGHT_GRAY;
         alignment := alignment parent |} in
  append prompt_text ;;
  append (Spacer 1 (0.25 * inch)) ;;
  st <- style styles "BodyText" ;;
  let result := Paragraph (font "#0076CE" 14 (bold "What You Should See:")) st in
  append result ;;
  append (Spacer 1 (0.1 * inch)) ;;
  st <- style styles "BodyText" ;;
  let result_text :=
    Paragraph (font "#5B5B5B" 12 ("â€¢ " +:+ expected_result)) st in
  append result_text ;;
  append PageBreak.

Definition create_code_slide (styles : gmap string ParagraphStyle)
    (title language code : string) : Eff (list Flowable) unit :=
  st <- style styles "Heading1" ;;
  let slide_title := Paragraph (font "#003E7E" 24 (bold title)) st in
  append slide_title ;;
  append (Spacer 1 (0.2 * inch)) ;;
  st <- style styles "BodyText" ;;
  let lang_label := Paragraph (font "#0076CE" 12 (bold language)) st in
  append lang_label ;;
  append (Spacer 1 (0.1 * inch)) ;;
  let code_lines := split "010" code in
  for_each (take 20 code_lines) (fun line =>
    st <- style styles "BodyText" ;;
    let code_p := Paragraph (font_face "#5B5B5B" 9 "Courier" line) st in
    append code_p ;;
    append (Spacer 1 (0.05 * inch))) ;;
  append PageBreak.

Section WithBuiltins.
Variable str_builtin : PyVal -> string.

(** The body of the loop [for item in content_items]. *)
Definition content_item (styles : gmap string ParagraphStyle) (item : PyVal)
  : Eff (list Flowable) unit :=
  if isinstance_str item then
    st <- style styles "BodyText" ;;
    let p := Paragraph (font "#5B5B5B" 14 ("â€¢ " +:+ format str_builtin item))
                       st in
    append p ;;
    append (Spacer 1 (0.15 * inch))
  else if isinstance_tuple item then
    head <- lift (getitem item 0) ;;
    st <- style styles "BodyText" ;;
    let p := Paragraph (font "#5B5B5B" 14 (bold (format str_builtin head))) st in
    append p ;;
    append (Spacer 1 (0.1 * inch)) ;;
    subs <- lift (getitem item 1) ;;
    subs <- lift (iter subs) ;;
    for_each subs (fun sub =>
      st <- style styles "BodyText" ;;
      let sp := Paragraph (font "#666666" 12 ("   â—¦ " +:+ format str_builtin sub))
                          st in
      append sp ;;
      append (Spacer 1 (0.08 * inch))) ;;
    append (Spacer 1 (0.1 * inch))
  else ret tt.

Definition create_content_slide (styles : gmap string ParagraphStyle)
    (title : string) (content_items : list PyVal)
  : Eff (list Flowable) unit :=
  st <- style styles "Heading1" ;;
  let slide_title := Paragraph (font "#003E7E" 28 (bold title)) st in
  append slide_title ;;
  append (Spacer 1 (0.3 * inch)) ;;
  for_each content_items (content_item styles) ;;
  append PageBreak.

Definition create_two_column_slide (styles : gmap string ParagraphStyle)
    (title left_title : string) (left_items : list PyVal)
    (right_title : string) (right_items : list PyVal)
  : Eff (list Flowable) unit :=
  st <- style styles "Heading1" ;;
  let slide_title := Paragraph (font "#003E7E" 28 (bold title)) st in
  append slide_title ;;
  append (Spacer 1 (0.3 * inch)) ;;
  let left_content :=
    foldl (fun left_content item =>
             left_content +:+
             font "#5B5B5B" 12 ("âœ“ " +:+ format str_builtin item)
             +:+ "<br/><br/>")
          (font "#0076CE" 16 (bold left_title) +:+ "<br/><br/>")
          left_items in
  let right_content :=
    foldl (fun right_content item =>
             right_content +:+
             font "#5B5B5B" 12 ("â€¢ " +:+ format str_builtin item)
             +:+ "<br/><br/>")
          (font "#0076CE" 16 (bold right_title) +:+ "<br/><br/>")
          right_items in
  st_left <- style styles "BodyText" ;;
  st_right <- style styles "BodyText" ;;
  let data := [[ Paragraph left_content st_left;
                 Paragraph right_content st_right ]] in
  let table :=
    Table data [4.5 * inch; 4.5 * inch]
      [ {| cmd := "VALIGN"; cell_from := (0, 0)%Z; cell_to := (-1, -1)%Z;
           cmd_arg := ArgStr "TOP" |};
        {| cmd := "LEFTPADDING"; cell_from := (0, 0)%Z; cell_to := (-1, -1)%Z;
           cmd_arg := ArgNum 20 |};
        {| cmd := "RIGHTPADDING"; cell_from := (0, 0)%Z; cell_to := (-1, -1)%Z;
           cmd_arg := ArgNum 20 |} ] in
  append table ;;
  append PageBreak.
End WithBuiltins.

End Interactive.

(** ** [create_interactive_presentation_v2.py] *)

Module InteractiveV2.
Import Py ReportLab Markup.
Local Open Scope eff_scope.

Definition PRIMARY_BLUE : Color := HexColor "#0076CE".
Definition LIGHT_GRAY : Color := HexColor "#E5E5E5".
Definition WHITE : Color := HexColor "#FFFFFF".

(** One entry of [ALL_PROMPTS]: a dict with the keys ['page'], ['title'],
    ['prompt'] and ['expected']. *)
Record Prompt := {
  item_page : Z;
  item_title : string;
  item_prompt : string;
  item_expected : string
}.

(** What the functions of this script mutate: the [story] list they are
    passed, the module-level list [ALL_PROMPTS], and the file
    [prompts.md] ([None] while it does not exist). *)
Record World := {
  story : list Flowable;
  ALL_PROMPTS : list Prompt;
  prompts_md : option string
}.

(** [story.append(x)]. *)
Definition append (x : Flowable) : Eff World unit :=
  fun w => (inr tt, {| story := story w ++ [x];
                       ALL_PROMPTS := ALL_PROMPTS w;
                       prompts_md := prompts_md w |}).

(** [ALL_PROMPTS.append(item)]. *)
Definition ALL_PROMPTS_append (item : Prompt) : Eff World unit :=
  fun w => (inr tt, {| story := story w;
                       ALL_PROMPTS := ALL_PROMPTS w ++ [item];
                       prompts_md := prompts_md w |}).

(** [open('prompts.md', 'w')]: the file is created or emptied. *)
Definition open_w : Eff World unit :=
  fun w => (inr tt, {| story := story w;
                       ALL_PROMPTS := ALL_PROMPTS w;
                       prompts_md := Some EmptyString |}).

(** [f.write(text)]. *)
Definition write (text : string) : Eff World unit :=
  fun w => (inr tt, {| story := story w;
                       ALL_PROMPTS := ALL_PROMPTS w;
                       prompts_md := Some (default EmptyString (prompts_md w) +:+ text) |}).

(** Reading the global [ALL_PROMPTS]. *)
Definition get_ALL_PROMPTS : Eff World (list Prompt) :=
  fun w => (inr (ALL_PROMPTS w), w).

(** [styles[name]]. *)
Definition style (styles : gmap string ParagraphStyle) (name : string)
  : Eff World ParagraphStyle :=
  lift (getitem_style styles name).

Definition create_title_slide (styles : gmap string ParagraphStyle)
  : Eff World unit :=
  append (Spacer 1 (1.5 * inch)) ;;
  st <- style styles "Title" ;;
  let title := Paragraph (font "#003E7E" 48 (bold "Claude Code")) st in
  append title ;;
  append (Spacer 1 (0.2 * inch)) ;;
  st <- style styles "Title" ;;
  let subtitle :=
    Paragraph (font "#0076CE" 32 "Interactive Tutorial & Workshop") st in
  append subtitle ;;
  append (Spacer 1 (0.3 * inch)) ;;
  st <- style styles "Title" ;;
  let desc :=
    Paragraph (font "#5B5B5B" 16 "AI-First Development for Modern Software Teams")
              st in
  append desc ;;
  append (Spacer 1 (0.5 * inch)) ;;
  st <- style styles "Title" ;;
  let footer :=
    Paragraph (font "#999999" 12 "https://github.com/emmanuelandre/claude-tutorial")
              st in
  append footer ;;
  append PageBreak.

Definition create_section_slide (styles : gmap string ParagraphStyle)
    (title : string) : Eff World unit :=
  append (Spacer 1 (1.8 * inch)) ;;
  parent <- style styles "Normal" ;;
  let section_text :=
    Paragraph (font "#FFFFFF" 38 (bold title))
      {| style_name := "SectionContent";
         fontSize := 38;
         leading := 48;
         leftIndent := leftIndent parent;
         rightIndent := rightIndent parent;
         spaceBefore := 30;
         spaceAfter := 30;
         textColor := WHITE;
         backColor := backColor parent;
         alignment := TA_CENTER |} in
  let data := [[section_text]] in
  let table :=
    Table data [9.5 * inch]
      [ {| cmd := "BACKGROUND"; cell_from := (0, 0)%Z; cell_to := (-1, -1)%Z;
           cmd_arg := ArgColor PRIMARY_BLUE |};
        {| cmd := "ALIGN"; cell_from := (0, 0)%Z; cell_to := (-1, -1)%Z;
           cmd_arg := ArgStr "CENTER" |};
        {| cmd := "VALIGN"; cell_from := (0, 0)%Z; cell_to := (-1, -1)%Z;
           cmd_arg := ArgStr "MIDDLE" |};
        {| cmd := "TOPPADDING"; cell_from := (0, 0)%Z; cell_to := (-1, -1)%Z;
           cmd_arg := ArgNum 40 |};
        {| cmd := "BOTTOMPADDING"; cell_from := (0, 0)%Z; cell_to := (-1, -1)%Z;
           cmd_arg := ArgNum 40 |} ] in
  append table ;;
  append PageBreak.

Definition create_hands_on_slide (styles : gmap string ParagraphStyle)
    (title prompt expected_result : string) (page_num : Z)
  : Eff World unit :=
  ALL_PROMPTS_append {| item_page := page_num;
                        item_title := title;
                        item_prompt := prompt;
                        item_expected := expected_result |} ;;
  st <- style styles "Heading1" ;;
  let slide_title :=
    Paragraph (font "#003E7E" 28 (bold ("üî® Hands-On: " +:+ title))) st in
  append slide_title ;;
  append (Spacer 1 (0.2 * inch)) ;;
  st <- style styles "BodyText" ;;
  let instruction :=
    Paragraph (font "#0076CE" 16 (bold "YOUR PROMPT (See prompts.md):")) st in
  append instruction ;;
  append (Spacer 1 (0.15 * inch)) ;;
  let prompt_html := replace "010" "<br/>" prompt in
  parent <- style styles "BodyText" ;;
  let prompt_para :=
    Paragraph (font_face "#5B5B5B" 10 "Courier" prompt_html)
      {| style_name := "PromptBox";
         fontSize := fontSize parent;
         leading := 14;
         leftIndent := 20;
         rightIndent := 20;
         spaceBefore := 5;
         spaceAfter := 5;
         textColor := textColor parent;
         backColor := Some LIGHT_GRAY;
         alignment := alignment parent |} in
  append prompt_para ;;
  append (Spacer 1 (0.2 * inch)) ;;
  st <- style styles "BodyText" ;;
  let result := Paragraph (font "#0076CE" 14 (bold "What You Should See:")) st in
  append result ;;
  append (Spacer 1 (0.1 * inch)) ;;
  st <- style styles "BodyText" ;;
  let result_text :=
    Paragraph (font "#5B5B5B" 12 ("‚Ä¢ " +:+ expected_result)) st in
  append result_text ;;
  append PageBreak.

(** The section [export_prompts_to_markdown] writes for one entry. *)
Definition export_item (item : Prompt) : Eff World unit :=
  write ("## Page " +:+ pretty (item_page item) +:+ ": " +:+ item_title item
         +:+ nl +:+ nl) ;;
  write ("**PROMPT:**" +:+ nl +:+ "```" +:+ nl) ;;
  write (item_prompt item) ;;
  write (nl +:+ "```" +:+ nl +:+ nl) ;;
  write ("**EXPECTED RESULT:**" +:+ nl) ;;
  write (item_expected item +:+ nl +:+ nl) ;;
  write ("---" +:+ nl +:+ nl).

Definition export_prompts_to_markdown : Eff World unit :=
  open_w ;;
  write ("# Claude Code Tutorial - Workshop Prompts" +:+ nl +:+ nl) ;;
  write ("Copy and paste these prompts during the workshop exercises."
         +:+ nl +:+ nl) ;;
  write ("---" +:+ nl +:+ nl) ;;
  items <- get_ALL_PROMPTS ;;
  for_each items export_item.

Section WithBuiltins.
Variable str_builtin : PyVal -> string.
(** [s.upper()] is Python's own; it is taken as given. *)
Variable str_upper : string -> string.

(** The body of the loop [for item in content_items]. *)
Definition content_item (styles : gmap string ParagraphStyle) (item : PyVal)
  : Eff World unit :=
  if isinstance_str item then
    st <- style styles "BodyText" ;;
    let p := Paragraph (font "#5B5B5B" 14 ("‚Ä¢ " +:+ format str_builtin item))
                       st in
    append p ;;
    append (Spacer 1 (0.15 * inch))
  else if isinstance_tuple item then
    head <- lift (getitem item 0) ;;
    st <- style styles "BodyText" ;;
    let p := Paragraph (font "#5B5B5B" 14 (bold (format str_builtin head))) st in
    append p ;;
    append (Spacer 1 (0.1 * inch)) ;;
    subs <- lift (getitem item 1) ;;
    subs <- lift (iter subs) ;;
    for_each subs (fun sub =>
      st <- style styles "BodyText" ;;
      let sp := Paragraph (font "#666666" 12 ("   ‚ó¶ " +:+ format str_builtin sub))
                          st in
      append sp ;;
      append (Spacer 1 (0.08 * inch))) ;;
    append (Spacer 1 (0.1 * inch))
  else ret tt.

Definition create_content_slide (styles : gmap string ParagraphStyle)
    (title : string) (content_items : list PyVal) : Eff World unit :=
  st <- style styles "Heading1" ;;
  let slide_title := Paragraph (font "#003E7E" 28 (bold title)) st in
  append slide_title ;;
  append (Spacer 1 (0.3 * inch)) ;;
  for_each content_items (content_item styles) ;;
  append PageBreak.

Definition create_code_slide (styles : gmap string ParagraphStyle)
    (title language code : string) : Eff World unit :=
  st <- style styles "Heading1" ;;
  let slide_title := Paragraph (font "#003E7E" 24 (bold title)) st in
  append slide_title ;;
  append (Spacer 1 (0.25 * inch)) ;;
  st <- style styles "BodyText" ;;
  let lang_label :=
    Paragraph (font "#0076CE" 12 (bold (str_upper language))) st in
  append lang_label ;;
  append (Spacer 1 (0.1 * inch)) ;;
  let code_html := replace " " "&nbsp;" (replace "010" "<br/>" code) in
  parent <- style styles "BodyText" ;;
  let code_para :=
    Paragraph (font_face "#5B5B5B" 9 "Courier" code_html)
      {| style_name := "CodeBox";
         fontSize := fontSize parent;
         leading := 12;
         leftIndent := 15;
         rightIndent := 15;
         spaceBefore := 5;
         spaceAfter := 5;
         textColor := textColor parent;
         backColor := Some LIGHT_GRAY;
         alignment := alignment parent |} in
  append code_para ;;
  append PageBreak.
End WithBuiltins.

End InteractiveV2.

(** ** The paragraph constructor: [reportlab.platypus.Paragraph]

    The assemblers above record every [Paragraph(text, style)] they build
    with the text they pass.  The constructor itself does more, and it is
    part of the call that builds the paragraph: it cleans the white space
    of the text, parses the result as markup, and raises [ValueError] when
    the parser reports an error.  This module models the constructor on
    the markup the three scripts write: character data, the tags [<b>],
    [</b>], [<br/>] and [</font>], and the opening [<font ...>] tags of
    the scripts.  On any other input the model gives no verdict. *)

Module Platypus.
Import Py ReportLab.

(** What the model says of a call into the library: the value it returns,
    the exception it raises, or nothing when the input is outside the
    model. *)
Inductive Verdict (A : Type) : Type :=
| Built (a : A)
| Raises (e : Exn)
| Unmodelled.
Arguments Built {A} a.
Arguments Raises {A} e.
Arguments Unmodelled {A}.


(** ASCII white space: tab, line feed, vertical tab, form feed, carriage
    return, the four separators and the space. *)
Definition is_space (a : ascii) : bool :=
  let n := nat_of_ascii a in
  ((9 <=? n) && (n <=? 13) || (28 <=? n) && (n <=? 32))%nat.

(** The byte [a], after the bytes [p2] and [p1], ends a white-space
    character outside ASCII: U+0085, U+00A0, U+1680, U+2000 to U+200B,
    U+2028, U+2029, U+202F, U+205F or U+3000 in UTF-8.  Python and
    reportlab do not agree with each other on all of them, and the model
    leaves texts that hold one alone. *)
Definition other_space_at (p2 p1 a : ascii) : bool :=
  let n := nat_of_ascii a in
  if Ascii.eqb p1 "194" then Ascii.eqb a "133" || Ascii.eqb a "160"
  else if Ascii.eqb p1 "154" then Ascii.eqb p2 "225" && Ascii.eqb a "128"
  else if Ascii.eqb p1 "128" then
    Ascii.eqb p2 "226" &&
      ((128 <=? n) && (n <=? 139) || Ascii.eqb a "168" || Ascii.eqb a "169"
       || Ascii.eqb a "175")%nat
    || Ascii.eqb p2 "227" && Ascii.eqb a "128"
  else if Ascii.eqb p1 "129" then Ascii.eqb p2 "226" && Ascii.eqb a "159"
  else false.

Fixpoint other_space_from (p2 p1 : ascii) (s : string) : bool :=
  match s with
  | EmptyString => false
  | String a s' => other_space_at p2 p1 a || other_space_from p1 a s'
  end.

Definition other_space (s : string) : bool := other_space_from "000" "000" s.

(** The words of a text joined by single spaces: [started] tells that a
    word was already written, [pending] that white space was met since. *)
Fixpoint collapse (started pending : bool) (s : string) : string :=
  match s with
  | EmptyString => EmptyString
  | String a s' =>
      if is_space a then collapse started true s'
      else (if started && pending then " " else EmptyString)
           +:+ String a (collapse true false s')
  end.

(** Modelled from the spec: [cleanBlockQuotedText] belongs to the reportlab
    library and is not among the repository's sources.  It strips every
    line of the text, turns the runs of white space inside the line into
    one space, drops the lines left empty and joins the others by a space.
    A line feed being white space itself, the result is
    [' '.join(text.split())]. *)
Definition cleanBlockQuotedText (text : string) : string :=
  collapse false false text.

(** The tags that can be open. *)
Inductive Tag := TagB | TagFont.

Definition Tag_eqb (x y : Tag) : bool :=
  match x, y with
  | TagB, TagB | TagFont, TagFont => true
  | _, _ => false
  end.

(** Where the parser is: in character data, just after an ampersand, or
    inside a tag, of which [src] was read so far. *)
Inductive Mode :=
| Text
| Amp
| InTag (src : string).

(** [font color="COLOR" size="SIZE"], the inside of an opening tag. *)
Definition font_open (color size : string) : string :=
  "font color=" +:+ dq +:+ color +:+ dq +:+ " size=" +:+ dq +:+ size +:+ dq.

Definition font_face_open (color size face : string) : string :=
  font_open color size +:+ " face=" +:+ dq +:+ face +:+ dq.

(** The opening font tags of the three scripts. *)
Definition font_tags : list string :=
  [ font_open "#003E7E" "48"; font_open "#003E7E" "28";
    font_open "#003E7E" "24"; font_open "#0076CE" "32";
    font_open "#0076CE" "16"; font_open "#0076CE" "14";
    font_open "#0076CE" "12"; font_open "#5B5B5B" "16";
    font_open "#5B5B5B" "14"; font_open "#5B5B5B" "12";
    font_open "#666666" "12"; font_open "#999999" "12";
    font_open "#FFFFFF" "38";
    font_face_open "#5B5B5B" "12" "Courier";
    font_face_open "#5B5B5B" "10" "Courier";
    font_face_open "#5B5B5B" "9" "Courier" ].

(** A closing tag must close the tag opened last. *)
Definition pop (tag : Tag) (stack : list Tag) : Verdict (list Tag) :=
  match stack with
  | top :: rest => if Tag_eqb top tag then Built rest else Raises ValueError
  | [] => Raises ValueError
  end.

(** The tag whose inside is [src], met with the tags [stack] open. *)
Definition end_of_tag (src : string) (stack : list Tag) : Verdict (list Tag) :=
  if String.eqb src "b" then Built (TagB :: stack)
  else if String.eqb src "/b" then pop TagB stack
  else if String.eqb src "br/" then Built stack
  else if String.eqb src "/font" then pop TagFont stack
  else if existsb (String.eqb src) font_tags then Built (TagFont :: stack)
  else Unmodelled.

(** The mode after a character of the text. *)
Definition in_text (a : ascii) : Mode :=
  if Ascii.eqb a "<" then InTag EmptyString
  else if Ascii.eqb a "&" then Amp
  else Text.

(** One character.  A numeric character reference ([&#...]) is outside
    the model; any other ampersand is character data to the parser. *)
Definition step (mode : Mode) (stack : list Tag) (a : ascii)
  : Verdict (Mode * list Tag) :=
  match mode with
  | Text => Built (in_text a, stack)
  | Amp => if Ascii.eqb a "#" then Unmodelled else Built (in_text a, stack)
  | InTag src =>
      if Ascii.eqb a ">" then
        match end_of_tag src stack with
        | Built stack' => Built (Text, stack')
        | Raises e => Raises e
        | Unmodelled => Unmodelled
        end
      else Built (InTag (src +:+ String a EmptyString), stack)
  end.

(** The end of the text: every tag must have been closed. *)
Definition finish (mode : Mode) (stack : list Tag) : Verdict unit :=
  match mode with
  | InTag _ => Unmodelled
  | Text | Amp =>
      match stack with [] => Built tt | _ :: _ => Raises ValueError end
  end.

Fixpoint scan (mode : Mode) (stack : list Tag) (s : string) : Verdict unit :=
  match s with
  | EmptyString => finish mode stack
  | String a s' =>
      match step mode stack a with
      | Built (mode', stack') => scan mode' stack' s'
      | Raises e => Raises e
      | Unmodelled => Unmodelled
      end
  end.

(** Modelled from the spec: [ParaParser.parse] belongs to the reportlab
    library and is not among the repository's sources.  It reads the text
    tag by tag, keeps the open tags on a stack and reports an error for a
    closing tag that does not close the tag opened last, and for a tag left
    open at the end. *)
Definition parse (text : string) : Verdict unit := scan Text [] text.

(** Modelled from the spec: [Paragraph.__init__] belongs to the reportlab
    library and is not among the repository's sources.  It cleans the
    text, parses the cleaned text, and raises [ValueError] when the parser
    reported an error; otherwise the paragraph keeps the cleaned text. *)
Definition Paragraph__init__ (text : string) : Verdict string :=
  if other_space text then Unmodelled
  else
    let text := cleanBlockQuotedText text in
    match parse text with
    | Built _ => Built text
    | Raises e => Raises e
    | Unmodelled => Unmodelled
    end.



End Platypus.

(** ** Vocabulary of the statements *)

Module Spec.
Import Py ReportLab Markup InteractiveV2.

(** Modelled from the spec: [getSampleStyleSheet()] belongs to the
    reportlab library and is not among the repository's sources.  Of the
    styles it provides, the scripts use ['Normal'], ['BodyText'], ['Title']
    and ['Heading1']; this is ['Normal']. *)
Definition Normal : ParagraphStyle :=
  {| style_name := "Normal"; fontSize := 10; leading := 12;
     leftIndent := 0; rightIndent := 0; spaceBefore := 0; spaceAfter := 0;
     textColor := HexColor "#000000"; backColor := None;
     alignment := TA_LEFT |}.

(** Modelled from the spec: the style ['BodyText'] of the sample sheet. *)
Definition BodyText : ParagraphStyle :=
  {| style_name := "BodyText"; fontSize := 10; leading := 12;
     leftIndent := 0; rightIndent := 0; spaceBefore := 6; spaceAfter := 0;
     textColor := HexColor "#000000"; backColor := None;
     alignment := TA_LEFT |}.

(** Modelled from the spec: the style ['Title'] of the sample sheet. *)
Definition Title : ParagraphStyle :=
  {| style_name := "Title"; fontSize := 18; leading := 22;
     leftIndent := 0; rightIndent := 0; spaceBefore := 0; spaceAfter := 6;
     textColor := HexColor "#000000"; backColor := None;
     alignment := TA_CENTER |}.

(** Modelled from the spec: the style ['Heading1'] of the sample sheet. *)
Definition Heading1 : ParagraphStyle :=
  {| style_name := "Heading1"; fontSize := 18; leading := 22;
     leftIndent := 0; rightIndent := 0; spaceBefore := 0; spaceAfter := 6;
     textColor := HexColor "#000000"; backColor := None;
     alignment := TA_LEFT |}.

(** Modelled from the spec: the sample sheet, restricted to the four
    styles the scripts look up. *)
Definition getSampleStyleSheet : gmap string ParagraphStyle :=
  <["Normal" := Normal]>
    (<["BodyText" := BodyText]>
       (<["Title" := Title]> (<["Heading1" := Heading1]> ∅))).


(** The documented shapes of a content item: a plain string, or a pair of
    a heading and a list of strings. *)
Inductive Item :=
| Bullet (text : string)
| Group (heading : string) (subs : list string).


(** What a bulleted block is expected to show for a content item: a
    top-level bullet in size 14 for a string; for a pair, the heading in
    bold and then one line per sub-item, in input order, each with the
    marker [ring] and in size 12.  [bullet] and [ring] are the markers of
    the script at hand. *)
Definition expected_item_blocks (bullet ring : string) (body : ParagraphStyle)
    (item : Item) : list Flowable :=
  match item with
  | Bullet text =>
      [Paragraph (font "#5B5B5B" 14 (bullet +:+ text)) body;
       Spacer 1 (0.15 * inch)]
  | Group heading subs =>
      [Paragraph (font "#5B5B5B" 14 (bold heading)) body;
       Spacer 1 (0.1 * inch)]
      ++ (sub ← subs;
          [Paragraph (font "#666666" 12 (ring +:+ sub)) body;
           Spacer 1 (0.08 * inch)])
      ++ [Spacer 1 (0.1 * inch)]
  end.

(** A computation returns normally and adds exactly [blocks] at the end of
    the story. *)
Definition adds {S} (story : S -> list Flowable) (m : Eff S unit)
    (blocks : list Flowable) : Prop :=
  forall s : S, (m s).1 = inr tt /\ story (m s).2 = story s ++ blocks.

(** A computation only appends to the story: whatever it returns or
    raises, the story it leaves starts with the story it found, and when it
    returns normally what it added ends with a page break. *)
Definition appends_slide {S A} (story : S -> list Flowable) (m : Eff S A)
  : Prop :=
  forall s : S,
    exists added : list Flowable,
      story (m s).2 = story s ++ added /\
      (forall a : A, (m s).1 = inr a -> last added = Some PageBreak).

(** The weaker frame property of the pieces of a slide. *)
Definition appends_only {S A} (story : S -> list Flowable) (m : Eff S A)
  : Prop :=
  forall s : S, story s `prefix_of` story (m s).2.

(** The world of the second interactive script after [blocks] were
    appended to the story and [prompts] to [ALL_PROMPTS]. *)
Definition extend (w : World) (blocks : list Flowable) (prompts : list Prompt)
  : World :=
  {| story := story w ++ blocks;
     ALL_PROMPTS := ALL_PROMPTS w ++ prompts;
     prompts_md := prompts_md w |}.

(** A computation of the second interactive script returns normally,
    having appended [blocks] and [prompts] and done nothing else. *)
Definition grows (m : Eff World unit) (blocks : list Flowable)
    (prompts : list Prompt) : Prop :=
  forall w : World, m w = (inr tt, extend w blocks prompts).

(** The section of [prompts.md] expected for one hands-on block: a
    page-number heading, the prompt inside a fence, the expected result,
    and a horizontal rule. *)
Definition expected_section (page : Z) (title prompt expected : string)
  : string :=
  "## Page " +:+ pretty page +:+ ": " +:+ title +:+ nl +:+ nl +:+
  "**PROMPT:**" +:+ nl +:+ "```" +:+ nl +:+ prompt +:+ nl +:+ "```" +:+ nl +:+ nl +:+
  "**EXPECTED RESULT:**" +:+ nl +:+ expected +:+ nl +:+ nl +:+
  "---" +:+ nl +:+ nl.

(** The three lines [prompts.md] starts with. *)
Definition prompts_preamble : string :=
  "# Claude Code Tutorial - Workshop Prompts" +:+ nl +:+ nl +:+
  "Copy and paste these prompts during the workshop exercises." +:+ nl +:+ nl +:+
  "---" +:+ nl +:+ nl.

(** The sections expected for a list of hands-on blocks, one after the
    other. *)
Definition expected_sections (items : list Prompt) : string :=
  foldr (fun item rest =>
           expected_section (item_page item) (item_title item)
                            (item_prompt item) (item_expected item) +:+ rest)
        EmptyString items.

(** A sequence of calls of [create_hands_on_slide], one per block. *)
Definition append_hands_on (styles : gmap string ParagraphStyle)
    (items : list Prompt) : Eff World unit :=
  for_each items (fun item =>
    create_hands_on_slide styles (item_title item) (item_prompt item)
                          (item_expected item) (item_page item)).

End Spec.

(** ** Sample inputs *)

Module Samples.
Import Py ReportLab Spec InteractiveV2.

(** A stand-in for Python's [str] on tuples and lists, and one for
    [str.upper]. *)
Definition sample_str : PyVal -> string := fun _ => EmptyString.
Definition sample_upper : string -> string := fun s => s.


(** Two hands-on blocks and a world in which nothing was built yet. *)
Definition sample_prompts : list Prompt :=
  [ {| item_page := 9; item_title := "Create Your First Project";
       item_prompt := "mkdir my-api-project" +:+ nl +:+ "git init";
       item_expected := "A CLAUDE.md file" |};
    {| item_page := 12; item_title := "Add a Feature";
       item_prompt := "Add a health endpoint";
       item_expected := "A passing test" |} ].

Definition empty_world : World :=
  {| story := []; ALL_PROMPTS := []; prompts_md := None |}.

(** A code listing of 22 lines, [line 1] to [line 22]. *)
Definition sample_code : string :=
  foldr (fun n rest => "line " +:+ pretty (Z.of_nat n) +:+ nl +:+ rest)
        "line 22" (seq 1 21).

End Samples.

(** ** Vocabulary of the further properties *)

Module More.
Import Py ReportLab Markup Spec InteractiveV2.

(** [c in s] for a character [c]. *)
Fixpoint contains_char (c : ascii) (s : string) : bool :=
  match s with
  | EmptyString => false
  | String a s' => Ascii.eqb a c || contains_char c s'
  end.







(** A computation raises [e], having added exactly [blocks] at the end of
    the story. *)
Definition raises {S A} (story : S -> list Flowable) (m : Eff S A) (e : Exn)
    (blocks : list Flowable) : Prop :=
  forall s : S, (m s).1 = inl e /\ story (m s).2 = story s ++ blocks.

(** A computation leaves a component of the state as it found it, whatever
    it returns or raises. *)
Definition keeps {S A B} (component : S -> B) (m : Eff S A) : Prop :=
  forall s : S, component (m s).2 = component s.

End More.

(** ** Vocabulary of the calls into the library *)

Module Outcome.
Import Py ReportLab Platypus Spec.






End Outcome.

(** ** Vocabulary of the proofs about the parser *)

Module Scanning.
Import Py ReportLab Platypus.






(** Cleaning and parsing in one pass over the text: the state of
    [collapse] and the state of [scan] after [t]. *)
Fixpoint run (started pending : bool) (mode : Mode) (stack : list Tag)
    (t : string) : Verdict (bool * bool * Mode * list Tag) :=
  match t with
  | EmptyString => Built (started, pending, mode, stack)
  | String a t' =>
      if is_space a then run started true mode stack t'
      else
        match (if started && pending then step mode stack " "
               else Built (mode, stack)) with
        | Built (mode1, stack1) =>
            match step mode1 stack1 a with
            | Built (mode2, stack2) => run true false mode2 stack2 t'
            | Raises e => Raises e
            | Unmodelled => Unmodelled
            end
        | Raises e => Raises e
        | Unmodelled => Unmodelled
        end
  end.





End Scanning.

(** * Theorems *)

(** ** The deferred pagination overlay *)

Module NumberedCanvasFacts.
Import ReportLab Canvas NumberedCanvas.
Local Open Scope Z_scope.

Lemma replay_doc n self st :
  _doc (replay n self st) =
    {| Pages := Pages (_doc self) ++ [replayed n st];
       sealed := sealed (_doc self) |}.
Proof.
  unfold replay, replayed, draw_page_number, footer. cbn.
  by rewrite <- !app_assoc.
Qed.

Lemma foldl_replay_pages n sts : forall self,
  Pages (_doc (foldl (replay n) self sts)) =
    Pages (_doc self) ++ (replayed n <$> sts).
Proof.
  induction sts as [|st sts IH]; intros self; cbn [foldl fmap list_fmap].
  - by rewrite app_nil_r.
  - rewrite IH, replay_doc. cbn. by rewrite <- app_assoc.
Qed.

Lemma Canvas_save_pages self :
  Pages (_doc (Canvas.save showPage self)) = Pages (_doc self).
Proof. unfold Canvas.save. by destruct (_code (dict self)). Qed.

Lemma save_pages self :
  Pages (_doc (save self)) =
    Pages (_doc self) ++
    (replayed (Z.of_nat (List.length (_saved_page_states self)))
       <$> _saved_page_states self).
Proof.
  unfold save. by rewrite Canvas_save_pages, foldl_replay_pages.
Qed.

Lemma footer_text_replayed n st :
  footer_text (replayed n st) = Some (page_text (_pageNumber st) n).
Proof.
  unfold footer_text, replayed, footer. cbn [stream].
  change [?a; ?b; ?c; ?d; ?e; ?f] with ([a; b; c; d; e] ++ [f]).
  by rewrite app_assoc, last_snoc.
Qed.

Lemma draw_frame self op :
  _pageNumber (dict (draw self op)) = _pageNumber (dict self) /\
  _code (dict (draw self op)) = _code (dict self) ++ [op] /\
  _saved_page_states (draw self op) = _saved_page_states self /\
  _doc (draw self op) = _doc self.
Proof. by destruct op. Qed.

Lemma accumulating_init : accumulating NumberedCanvas.__init__.
Proof. by repeat split. Qed.

Lemma accumulating_call self c : accumulating self -> accumulating (call self c).
Proof.
  intros (Hp & Hs & Hn & Hnum). destruct c as [op|]; cbn [call].
  - destruct (draw_frame self op) as (E1 & _ & E3 & E4).
    unfold accumulating. by rewrite E1, E3, E4.
  - unfold accumulating, showPage; cbn.
    rewrite length_app, Nat.add_1_r. repeat split; [done|done|lia|].
    rewrite fmap_app, Hnum, seq_S, fmap_app. cbn. by rewrite Hn.
Qed.

Lemma accumulating_run calls : forall self,
  accumulating self -> accumulating (run calls self).
Proof.
  induction calls as [|c calls IH]; intros self H; [done|].
  apply IH, accumulating_call, H.
Qed.

Lemma run_cons c calls self : run (c :: calls) self = run calls (call self c).
Proof. reflexivity. Qed.

Lemma run_saved_length calls : forall self,
  List.length (_saved_page_states (run calls self)) =
    (List.length (_saved_page_states self) + count_pages calls)%nat.
Proof.
  induction calls as [|c calls IH]; intros self.
  - cbn. lia.
  - rewrite run_cons, IH. destruct c as [op|]; cbn [call count_pages].
    + destruct (draw_frame self op) as (_ & _ & E3 & _). by rewrite E3.
    + unfold showPage; cbn. rewrite length_app. cbn. lia.
Qed.

(** The snapshots hold what was drawn between the page-complete signals. *)
Lemma run_saved_code calls : forall self,
  _code <$> _saved_page_states (run calls self) =
    (_code <$> _saved_page_states self) ++ captured (_code (dict self)) calls.
Proof.
  induction calls as [|c calls IH]; intros self.
  - cbn. by rewrite app_nil_r.
  - rewrite run_cons, IH. destruct c as [op|]; cbn [call captured].
    + destruct (draw_frame self op) as (_ & E2 & E3 & _). by rewrite E2, E3.
    + unfold showPage; cbn. rewrite fmap_app. cbn. by rewrite <- app_assoc.
Qed.

Lemma captured_draws ops : forall current calls,
  captured current ((Draw <$> ops) ++ calls) = captured (current ++ ops) calls.
Proof.
  induction ops as [|op ops IH]; intros current calls; cbn.
  - by rewrite app_nil_r.
  - by rewrite IH, <- app_assoc.
Qed.

Lemma count_pages_draws ops : forall calls,
  count_pages ((Draw <$> ops) ++ calls) = count_pages calls.
Proof. induction ops as [|op ops IH]; intros calls; cbn; auto. Qed.

Lemma fmap_zip_keys {A B C D} (g : A -> B) (k : A -> C) (h : B -> C -> D)
    (l : list A) :
  (fun x => h (g x) (k x)) <$> l = zip_with h (g <$> l) (k <$> l).
Proof. induction l as [|x l IH]; cbn; [done|]. by rewrite IH. Qed.

Lemma stream_replayed n sts :
  stream <$> (replayed n <$> sts) =
    zip_with (fun code k => code ++ footer k n)
             (_code <$> sts) (_pageNumber <$> sts).
Proof.
  rewrite <- list_fmap_compose.
  apply (fmap_zip_keys _code _pageNumber (fun code k => code ++ footer k n)).
Qed.

End NumberedCanvasFacts.

Section Overlay.
Import ReportLab Canvas NumberedCanvas NumberedCanvasFacts.
Local Open Scope Z_scope.

Lemma run_doc calls : forall self, _doc (run calls self) = _doc self.
Proof.
  induction calls as [|c calls IH]; intros self; [done|].
  rewrite run_cons, IH. destruct c as [op|]; [|done].
  by destruct (draw_frame self op) as (_ & _ & _ & E).
Qed.

Lemma save_sealed self : sealed (_doc (save self)) = true.
Proof. reflexivity. Qed.

(** Saving a canvas that has only accumulated pages: the output is the
    captured pages, the k-th of them with the footer "Page k of N". *)
Lemma save_after_run calls :
  let N := count_pages calls in
  let out := Pages (_doc (save (run calls NumberedCanvas.__init__))) in
  stream <$> out =
    zip_with (fun code k => code ++ footer (Z.of_nat k) (Z.of_nat N))
             (captured [] calls) (seq 1 N) /\
  footer_text <$> out =
    (fun k => Some (page_text (Z.of_nat k) (Z.of_nat N))) <$> seq 1 N.
Proof.
  cbn zeta.
  pose proof (accumulating_run calls _ accumulating_init) as (Hp & _ & _ & Hnum).
  pose proof (run_saved_length calls NumberedCanvas.__init__) as Hlen.
  pose proof (run_saved_code calls NumberedCanvas.__init__) as Hcode.
  cbn in Hlen, Hcode. rewrite save_pages, Hp, app_nil_l.
  set (sts := _saved_page_states (run calls NumberedCanvas.__init__)) in *.
  rewrite Hlen in *. split.
  - by rewrite stream_replayed, Hcode, Hnum, zip_with_fmap_r.
  - rewrite <- list_fmap_compose.
    transitivity
      ((fun k => Some (page_text k (Z.of_nat (count_pages calls))))
         <$> (_pageNumber <$> sts)).
    + rewrite <- list_fmap_compose. apply list_fmap_ext.
      intros _ st _. apply footer_text_replayed.
    + by rewrite Hnum, <- list_fmap_compose.
Qed.

(** C1: for every document of N pages produced through NumberedCanvas, the
    pages committed by save are the N captured pages in order, the k-th one
    followed by exactly one footer, which reads "Page k of N": the same
    total N on every page and the numbers 1..N in output order.  A deck of
    three pages (title, content, closing) yields exactly three footers,
    "Page 1 of 3", "Page 2 of 3" and "Page 3 of 3". *)
Theorem footers_show_total_and_sequence :
  (forall calls : list Call,
     let N := count_pages calls in
     let out := Pages (_doc (save (run calls NumberedCanvas.__init__))) in
     List.length out = N /\
     stream <$> out =
       zip_with (fun code k => code ++ footer (Z.of_nat k) (Z.of_nat N))
                (captured [] calls) (seq 1 N) /\
     footer_text <$> out =
       (fun k => Some (page_text (Z.of_nat k) (Z.of_nat N))) <$> seq 1 N) /\
  (forall title content closing : list DrawOp,
     let deck := (Draw <$> title) ++ ShowPage ::
                 (Draw <$> content) ++ ShowPage ::
                 (Draw <$> closing) ++ [ShowPage] in
     let out := Pages (_doc (save (run deck NumberedCanvas.__init__))) in
     stream <$> out =
       [title ++ footer 1 3; content ++ footer 2 3; closing ++ footer 3 3] /\
     footer_text <$> out =
       [Some "Page 1 of 3"; Some "Page 2 of 3"; Some "Page 3 of 3"]).
Proof.
  split.
  - intros calls N out. destruct (save_after_run calls) as [Hs Hf].
    split; [|by split].
    rewrite <- (length_fmap footer_text). fold out in Hf. rewrite Hf.
    by rewrite length_fmap, length_seq.
  - intros title content closing deck out.
    destruct (save_after_run deck) as [Hs Hf]. fold out in Hs, Hf.
    assert (count_pages deck = 3%nat) as HN.
    { unfold deck. rewrite count_pages_draws. cbn [count_pages].
      rewrite count_pages_draws. cbn [count_pages].
      by rewrite count_pages_draws. }
    assert (captured [] deck = [title; content; closing]) as Hc.
    { unfold deck. rewrite captured_draws. cbn [captured].
      rewrite captured_draws. cbn [captured].
      by rewrite captured_draws. }
    rewrite HN, Hc in Hs. rewrite HN in Hf. by split.
Qed.

(** C2: save replays and commits the captured page states in exactly the
    order they were captured: the pages it adds to the output are, position
    by position, the snapshots of _saved_page_states, each followed by its
    footer; none is dropped, duplicated or moved. *)
Theorem save_commits_in_capture_order (self : Canvas) :
  let snapshots := _saved_page_states self in
  let N := Z.of_nat (List.length snapshots) in
  let before := Pages (_doc self) in
  Pages (_doc (save self)) = before ++ (replayed N <$> snapshots) /\
  List.length (Pages (_doc (save self))) =
    (List.length before + List.length snapshots)%nat /\
  (forall i : nat,
     Pages (_doc (save self)) !! (List.length before + i)%nat =
       replayed N <$> snapshots !! i).
Proof.
  cbn zeta. rewrite save_pages. split; [done|]. split.
  - by rewrite length_app, length_fmap.
  - intros i. by rewrite lookup_app_r, Nat.add_sub', list_lookup_fmap by lia.
Qed.

Lemma pretty_N_go_no_space (x : N) : forall s : string,
  More.contains_char " " s = false ->
  More.contains_char " " (pretty_N_go x s) = false.
Proof.
  induction (N.lt_wf_0 x) as [x _ IH]; intros s Hs.
  assert (x = 0 \/ 0 < x)%N as [->|Hx] by lia; [done|].
  rewrite pretty_N_go_step by done. apply IH; [by apply N.div_lt|].
  cbn [More.contains_char]. rewrite Hs.
  unfold pretty_N_char. by repeat case_match.
Qed.

Lemma pretty_Z_no_space (z : Z) : More.contains_char " " (pretty z) = false.
Proof.
  assert (forall p : positive, More.contains_char " " (pretty p) = false) as Hp.
  { intros p. unfold pretty, pretty_positive, pretty, pretty_N.
    case_decide; [done|]. by apply pretty_N_go_no_space. }
  destruct z as [|p|p]; [done|apply Hp|].
  change (pretty (Z.neg p)) with (String "-" (pretty p)).
  cbn [More.contains_char]. by rewrite Hp.
Qed.

(** Two texts that agree and whose first words end at a space agree word
    by word. *)
Lemma first_word_inj (a a' r r' : string) :
  More.contains_char " " a = false -> More.contains_char " " a' = false ->
  a +:+ String " " r = a' +:+ String " " r' -> a = a' /\ r = r'.
Proof.
  revert a'. induction a as [|x a IH]; intros [|x' a'] Ha Ha' H.
  - by injection H as ->.
  - change (String " " r = String x' (a' +:+ String " " r')) in H.
    injection H as <- _. discriminate Ha'.
  - change (String x (a +:+ String " " r) = String " " r') in H.
    injection H as -> _. discriminate Ha.
  - change (String x (a +:+ String " " r) = String x' (a' +:+ String " " r'))
      in H.
    injection H as -> H. cbn [More.contains_char] in Ha, Ha'.
    apply orb_false_iff in Ha as [_ Ha]. apply orb_false_iff in Ha' as [_ Ha'].
    destruct (IH a' Ha Ha' H) as [-> ->]. done.
Qed.

(** The footer text tells the page number and the total apart. *)
Lemma footer_text_reads (k n k' n' : Z) :
  "Page " +:+ pretty k +:+ " of " +:+ pretty n =
  "Page " +:+ pretty k' +:+ " of " +:+ pretty n' ->
  k = k' /\ n = n'.
Proof.
  intros H. apply (inj (String.append "Page ")) in H.
  change (pretty k +:+ String " " ("of " +:+ pretty n) =
          pretty k' +:+ String " " ("of " +:+ pretty n')) in H.
  apply first_word_inj in H as [Hk Hn]; [|apply pretty_Z_no_space..].
  apply (inj (String.append "of ")) in Hn.
  split; by apply (inj pretty).
Qed.

(** C3: when save is invoked, the total shown in every footer is the length
    of _saved_page_states at that moment, the same value on all pages: the
    footer of every page that save commits reads "Page k of N" with N that
    length, and it can be read as the footer of no other total; after save
    the output is sealed. *)
Theorem save_total_is_number_of_snapshots (self : Canvas) :
  let N := Z.of_nat (List.length (_saved_page_states self)) in
  let committed :=
    drop (List.length (Pages (_doc self))) (Pages (_doc (save self))) in
  Forall2
    (fun state page =>
       stream page = _code state ++ footer (_pageNumber state) N /\
       footer_text page =
         Some ("Page " +:+ pretty (_pageNumber state) +:+ " of " +:+ pretty N) /\
       (forall k n : Z,
          footer_text page =
            Some ("Page " +:+ pretty k +:+ " of " +:+ pretty n) ->
          n = N))
    (_saved_page_states self) committed /\
  sealed (_doc (save self)) = true.
Proof.
  cbn zeta. split; [|apply save_sealed].
  rewrite save_pages, drop_app_length.
  apply Forall2_fmap_r, Forall_Forall2_diag, Forall_forall.
  intros st _. unfold compose. rewrite footer_text_replayed.
  split; [done|]. split; [done|].
  intros k n H. apply (inj Some) in H.
  symmetry. exact (proj2 (footer_text_reads _ _ _ _ H)).
Qed.

(** C4: every showPage appends a copy of the current draw state to
    _saved_page_states, resets the renderer to a blank page and commits
    nothing: the output document is untouched, by this call and by all
    calls made while pages are accumulated. *)
Theorem showPage_captures_and_resets (self : Canvas) :
  _saved_page_states (showPage self) = _saved_page_states self ++ [dict self] /\
  dict (showPage self) = dict (_startPage self) /\
  _code (dict (showPage self)) = [] /\
  _doc (showPage self) = _doc self /\
  (forall calls : list Call, _doc (run calls self) = _doc self).
Proof. repeat split. intros calls. apply run_doc. Qed.

End Overlay.

(** ** The slide assemblers *)

Module EffFacts.
Import Py ReportLab Spec.

Lemma bind_style {S B} (styles : gmap string ParagraphStyle) name st
    (k : ParagraphStyle -> Eff S B) (s : S) :
  styles !! name = Some st ->
  bind (lift (getitem_style styles name)) k s = k st s.
Proof. unfold bind, lift, getitem_style. by intros ->. Qed.


Lemma append_assoc (a b c : string) : (a +:+ b) +:+ c = a +:+ (b +:+ c).
Proof.
  induction a as [|x a IH]; [reflexivity|].
  change (String x ((a +:+ b) +:+ c) = String x (a +:+ (b +:+ c))).
  by rewrite IH.
Qed.

Lemma append_nil_r (a : string) : a +:+ EmptyString = a.
Proof.
  induction a as [|x a IH]; [reflexivity|].
  change (String x (a +:+ EmptyString) = String x a). by rewrite IH.
Qed.



(** Frame lemmas: the pieces of a slide leave the story they found as a
    prefix of the story they leave. *)
Section Frame.
Context {S : Type} (story : S -> list Flowable).

Lemma appends_only_ret {A} (a : A) : appends_only story (ret a).
Proof. intros s. done. Qed.

Lemma appends_only_lift {A} (r : Exn + A) : appends_only story (lift r).
Proof. intros s. by destruct r. Qed.

Lemma appends_only_bind {A B} (m : Eff S A) (k : A -> Eff S B) :
  appends_only story m -> (forall a, appends_only story (k a)) ->
  appends_only story (bind m k).
Proof.
  intros Hm Hk s. specialize (Hm s). unfold bind.
  destruct (m s) as [[e|a] s']; [done|].
  specialize (Hk a s'). cbn in *. by etrans.
Qed.

Lemma appends_only_for_each {A} (xs : list A) (body : A -> Eff S unit) :
  (forall x, appends_only story (body x)) ->
  appends_only story (for_each xs body).
Proof.
  intros Hb. induction xs as [|x xs IH]; cbn [for_each].
  - apply appends_only_ret.
  - apply appends_only_bind; auto.
Qed.

Lemma appends_slide_bind {A B} (m : Eff S A) (k : A -> Eff S B) :
  appends_only story m -> (forall a, appends_slide story (k a)) ->
  appends_slide story (bind m k).
Proof.
  intros Hm Hk s. destruct (Hm s) as [out1 H1]. unfold bind.
  destruct (m s) as [[e|a] s'] eqn:E; cbn in *.
  - exists out1. split; [done|]. intros b Hb. discriminate Hb.
  - destruct (Hk a s') as (out2 & H2 & Hlast). exists (out1 ++ out2).
    rewrite H2, H1, app_assoc. split; [done|].
    intros b Hb. specialize (Hlast b Hb).
    destruct out2 as [|x out2]; [discriminate Hlast|].
    rewrite last_app. by rewrite Hlast.
Qed.

Lemma adds_eq (m : Eff S unit) (blocks blocks' : list Flowable) :
  adds story m blocks -> blocks = blocks' -> adds story m blocks'.
Proof. by intros H <-. Qed.


Lemma adds_bind (m : Eff S unit) (k : unit -> Eff S unit) b1 b2 :
  adds story m b1 -> adds story (k tt) b2 -> adds story (bind m k) (b1 ++ b2).
Proof.
  intros Hm Hk s. destruct (Hm s) as [H1 H2]. unfold bind.
  destruct (m s) as [r s']; cbn in H1, H2; subst r.
  destruct (Hk s') as [H3 H4]. by rewrite H4, H2, app_assoc.
Qed.


Lemma adds_bind_style styles name st (k : ParagraphStyle -> Eff S unit) b :
  styles !! name = Some st -> adds story (k st) b ->
  adds story (bind (lift (getitem_style styles name)) k) b.
Proof. intros Hst H s. rewrite (bind_style _ _ _ _ _ Hst). apply H. Qed.



Lemma appends_slide_prefix {A} (m : Eff S A) (s : S) :
  appends_slide story m -> story s `prefix_of` story (m s).2.
Proof. intros H. destruct (H s) as (out & -> & _). by exists out. Qed.
End Frame.

End EffFacts.

Module PresentationFacts.
Import Py ReportLab Markup Story Spec EffFacts Presentation.
Local Open Scope eff_scope.

Lemma P_append_only (x : Flowable) : appends_only id (append x).
Proof. intros s. by exists [x]. Qed.

Lemma P_style_only styles name :
  appends_only id (@style (list Flowable) styles name).
Proof. apply appends_only_lift. Qed.

Lemma P_append_page_break : appends_slide id (append PageBreak).
Proof. intros s. by exists [PageBreak]. Qed.

Ltac frame :=
  repeat first
    [ apply P_append_only
    | apply P_style_only
    | apply appends_only_ret
    | apply appends_only_lift
    | apply appends_only_for_each; intros ?
    | apply appends_only_bind; [|intros ?]
    | progress cbv zeta
    | match goal with
      | |- appends_only _ (if ?b then _ else _) => destruct b
      end ].

Ltac slide_frame :=
  repeat first
    [ apply P_append_page_break
    | apply appends_slide_bind; [solve [frame]|intros ?]
    | progress cbv zeta ].

Lemma P_adds_append (x : Flowable) : adds id (append x) [x].
Proof. intros s. done. Qed.

Ltac adds_step :=
  repeat first
    [ apply P_adds_append
    | eapply adds_bind_style; [eassumption|]
    | eapply adds_bind; [apply P_adds_append|]
    | progress cbv zeta ].

Ltac adds_slide :=
  eapply adds_eq; [adds_step|cbn [app]; reflexivity].

Lemma P_title_slide_frame styles : appends_slide id (create_title_slide styles).
Proof. unfold create_title_slide. slide_frame. Qed.

Lemma P_section_slide_frame styles title :
  appends_slide id (create_section_slide styles title).
Proof. unfold create_section_slide. slide_frame. Qed.

Lemma P_content_item_frame sb styles item :
  appends_only id (content_item sb styles item).
Proof. unfold content_item. frame. Qed.

Lemma P_content_slide_frame sb styles title items :
  appends_slide id (create_content_slide sb styles title items).
Proof.
  unfold create_content_slide.
  repeat first
    [ apply P_append_page_break
    | apply appends_slide_bind;
      [solve [frame | apply appends_only_for_each; intros ?;
                      apply P_content_item_frame]|intros ?]
    | progress cbv zeta ].
Qed.

Lemma P_two_column_slide_frame sb styles title lt li rt ri :
  appends_slide id (create_two_column_slide sb styles title lt li rt ri).
Proof. unfold create_two_column_slide. slide_frame. Qed.

Section Documented.
Context (sb : PyVal -> string) (styles : gmap string ParagraphStyle).
Context (normal body title_st heading1 : ParagraphStyle).
Hypothesis Hnormal : styles !! "Normal" = Some normal.
Hypothesis Hbody : styles !! "BodyText" = Some body.
Hypothesis Htitle : styles !! "Title" = Some title_st.
Hypothesis Hheading1 : styles !! "Heading1" = Some heading1.

Lemma P_title_slide_adds : exists blocks, adds id (create_title_slide styles) blocks.
Proof. eexists. unfold create_title_slide, style. adds_step. Qed.

Lemma P_section_slide_adds title :
  exists blocks, adds id (create_section_slide styles title) blocks.
Proof. eexists. unfold create_section_slide, style. adds_step. Qed.

Lemma P_two_column_slide_adds title lt li rt ri :
  exists blocks,
    adds id (create_two_column_slide sb styles title lt li rt ri) blocks.
Proof. eexists. unfold create_two_column_slide, style. adds_step. Qed.


End Documented.

End PresentationFacts.

Module InteractiveFacts.
Import Py ReportLab Markup Story Spec EffFacts Interactive.
Local Open Scope eff_scope.

Lemma I_append_only (x : Flowable) : appends_only id (append x).
Proof. intros s. by exists [x]. Qed.

Lemma I_style_only styles name :
  appends_only id (@style (list Flowable) styles name).
Proof. apply appends_only_lift. Qed.

Lemma I_append_page_break : appends_slide id (append PageBreak).
Proof. intros s. by exists [PageBreak]. Qed.

Ltac frame :=
  repeat first
    [ apply I_append_only
    | apply I_style_only
    | apply appends_only_ret
    | apply appends_only_lift
    | apply appends_only_for_each; intros ?
    | apply appends_only_bind; [|intros ?]
    | progress cbv zeta
    | match goal with
      | |- appends_only _ (if ?b then _ else _) => destruct b
      end ].

Ltac slide_frame :=
  repeat first
    [ apply I_append_page_break
    | apply appends_slide_bind; [solve [frame]|intros ?]
    | progress cbv zeta ].

Lemma I_adds_append (x : Flowable) : adds id (append x) [x].
Proof. intros s. done. Qed.

Ltac adds_step :=
  repeat first
    [ apply I_adds_append
    | eapply adds_bind_style; [eassumption|]
    | eapply adds_bind; [apply I_adds_append|]
    | progress cbv zeta ].

Ltac adds_slide :=
  eapply adds_eq; [adds_step|cbn [app]; reflexivity].

Lemma I_title_slide_frame styles : appends_slide id (create_title_slide styles).
Proof. unfold create_title_slide. slide_frame. Qed.

Lemma I_section_slide_frame styles title :
  appends_slide id (create_section_slide styles title).
Proof. unfold create_section_slide. slide_frame. Qed.

Lemma I_content_item_frame sb styles item :
  appends_only id (content_item sb styles item).
Proof. unfold content_item. frame. Qed.

Lemma I_content_slide_frame sb styles title items :
  appends_slide id (create_content_slide sb styles title items).
Proof.
  unfold create_content_slide.
  repeat first
    [ apply I_append_page_break
    | apply appends_slide_bind;
      [solve [frame | apply appends_only_for_each; intros ?;
                      apply I_content_item_frame]|intros ?]
    | progress cbv zeta ].
Qed.

Lemma I_two_column_slide_frame sb styles title lt li rt ri :
  appends_slide id (create_two_column_slide sb styles title lt li rt ri).
Proof. unfold create_two_column_slide. slide_frame. Qed.

Lemma I_hands_on_slide_frame styles title prompt expected :
  appends_slide id (create_hands_on_slide styles title prompt expected).
Proof. unfold create_hands_on_slide. slide_frame. Qed.

Lemma I_code_slide_frame styles title language code :
  appends_slide id (create_code_slide styles title language code).
Proof. unfold create_code_slide. slide_frame. Qed.

Section Documented.
Context (sb : PyVal -> string) (styles : gmap string ParagraphStyle).
Context (normal body title_st heading1 : ParagraphStyle).
Hypothesis Hnormal : styles !! "Normal" = Some normal.
Hypothesis Hbody : styles !! "BodyText" = Some body.
Hypothesis Htitle : styles !! "Title" = Some title_st.
Hypothesis Hheading1 : styles !! "Heading1" = Some heading1.

Lemma I_title_slide_adds : exists blocks, adds id (create_title_slide styles) blocks.
Proof. eexists. unfold create_title_slide, style. adds_step. Qed.

Lemma I_section_slide_adds title :
  exists blocks, adds id (create_section_slide styles title) blocks.
Proof. eexists. unfold create_section_slide, style. adds_step. Qed.

Lemma I_two_column_slide_adds title lt li rt ri :
  exists blocks,
    adds id (create_two_column_slide sb styles title lt li rt ri) blocks.
Proof. eexists. unfold create_two_column_slide, style. adds_step. Qed.


Lemma I_hands_on_slide_adds title prompt expected :
  exists blocks,
    adds id (create_hands_on_slide styles title prompt expected) blocks.
Proof. eexists. unfold create_hands_on_slide, style. adds_step. Qed.

End Documented.

End InteractiveFacts.

Module InteractiveV2Facts.
Import Py ReportLab Markup Spec EffFacts InteractiveV2.
Local Open Scope eff_scope.

Lemma V_append_only (x : Flowable) : appends_only story (append x).
Proof. intros w. by exists [x]. Qed.

Lemma V_prompts_only (p : Prompt) : appends_only story (ALL_PROMPTS_append p).
Proof. intros w. done. Qed.

Lemma V_style_only styles name : appends_only story (style styles name).
Proof. apply appends_only_lift. Qed.

Lemma V_append_page_break : appends_slide story (append PageBreak).
Proof. intros w. by exists [PageBreak]. Qed.

Ltac frame :=
  repeat first
    [ apply V_append_only
    | apply V_prompts_only
    | apply V_style_only
    | apply appends_only_ret
    | apply appends_only_lift
    | apply appends_only_for_each; intros ?
    | apply appends_only_bind; [|intros ?]
    | progress cbv zeta
    | match goal with
      | |- appends_only _ (if ?b then _ else _) => destruct b
      end ].

Ltac slide_frame :=
  repeat first
    [ apply V_append_page_break
    | apply appends_slide_bind; [solve [frame]|intros ?]
    | progress cbv zeta ].

Lemma V_title_slide_frame styles : appends_slide story (create_title_slide styles).
Proof. unfold create_title_slide. slide_frame. Qed.

Lemma V_section_slide_frame styles title :
  appends_slide story (create_section_slide styles title).
Proof. unfold create_section_slide. slide_frame. Qed.

Lemma V_hands_on_slide_frame styles title prompt expected page_num :
  appends_slide story (create_hands_on_slide styles title prompt expected page_num).
Proof. unfold create_hands_on_slide. slide_frame. Qed.

Lemma V_content_item_frame sb styles item :
  appends_only story (content_item sb styles item).
Proof. unfold content_item. frame. Qed.

Lemma V_content_slide_frame sb styles title items :
  appends_slide story (create_content_slide sb styles title items).
Proof.
  unfold create_content_slide.
  repeat first
    [ apply V_append_page_break
    | apply appends_slide_bind;
      [solve [frame | apply appends_only_for_each; intros ?;
                      apply V_content_item_frame]|intros ?]
    | progress cbv zeta ].
Qed.

Lemma V_code_slide_frame up styles title language code :
  appends_slide story (create_code_slide up styles title language code).
Proof. unfold create_code_slide. slide_frame. Qed.

(** Growth of the world: the story and the list of prompts. *)

Lemma V_extend_extend w b1 p1 b2 p2 :
  extend (extend w b1 p1) b2 p2 = extend w (b1 ++ b2) (p1 ++ p2).
Proof. unfold extend. cbn. by rewrite !app_assoc. Qed.

Lemma V_extend_nil w : extend w [] [] = w.
Proof. destruct w. unfold extend. cbn. by rewrite !app_nil_r. Qed.

Lemma V_grows_eq m b p b' p' : grows m b p -> b = b' -> p = p' -> grows m b' p'.
Proof. by intros H <- <-. Qed.

Lemma V_grows_ret : grows (ret tt) [] [].
Proof. intros w. by rewrite V_extend_nil. Qed.

Lemma V_grows_append x : grows (append x) [x] [].
Proof. intros w. unfold append, extend. by rewrite app_nil_r. Qed.

Lemma V_grows_prompt p : grows (ALL_PROMPTS_append p) [] [p].
Proof. intros w. unfold ALL_PROMPTS_append, extend. by rewrite app_nil_r. Qed.

Lemma V_grows_bind m (k : unit -> Eff World unit) b1 p1 b2 p2 :
  grows m b1 p1 -> grows (k tt) b2 p2 -> grows (bind m k) (b1 ++ b2) (p1 ++ p2).
Proof.
  intros Hm Hk w. unfold bind. by rewrite Hm, Hk, V_extend_extend.
Qed.


Lemma V_grows_bind_style styles name st (k : ParagraphStyle -> Eff World unit) b p :
  styles !! name = Some st -> grows (k st) b p ->
  grows (bind (style styles name) k) b p.
Proof.
  intros Hst H w. unfold style. rewrite (bind_style _ _ _ _ _ Hst). apply H.
Qed.



Ltac grows_step :=
  repeat first
    [ apply V_grows_append
    | eapply V_grows_bind_style; [eassumption|]
    | eapply V_grows_bind; [apply V_grows_append|]
    | eapply V_grows_bind; [apply V_grows_prompt|]
    | progress cbv zeta ].

Section Documented.
Context (sb : PyVal -> string) (up : string -> string).
Context (styles : gmap string ParagraphStyle).
Context (normal body title_st heading1 : ParagraphStyle).
Hypothesis Hnormal : styles !! "Normal" = Some normal.
Hypothesis Hbody : styles !! "BodyText" = Some body.
Hypothesis Htitle : styles !! "Title" = Some title_st.
Hypothesis Hheading1 : styles !! "Heading1" = Some heading1.

Lemma V_title_slide_grows : exists blocks, grows (create_title_slide styles) blocks [].
Proof.
  eexists. unfold create_title_slide.
  eapply V_grows_eq; [grows_step|reflexivity|reflexivity].
Qed.

Lemma V_section_slide_grows title :
  exists blocks, grows (create_section_slide styles title) blocks [].
Proof.
  eexists. unfold create_section_slide.
  eapply V_grows_eq; [grows_step|reflexivity|reflexivity].
Qed.

Lemma V_code_slide_grows title language code :
  exists blocks, grows (create_code_slide up styles title language code) blocks [].
Proof.
  eexists. unfold create_code_slide.
  eapply V_grows_eq; [grows_step|reflexivity|reflexivity].
Qed.

Lemma V_hands_on_slide_grows title prompt expected page_num :
  exists blocks,
    grows (create_hands_on_slide styles title prompt expected page_num) blocks
          [ {| item_page := page_num; item_title := title;
               item_prompt := prompt; item_expected := expected |} ].
Proof.
  eexists. unfold create_hands_on_slide.
  eapply V_grows_eq; [grows_step|reflexivity|reflexivity].
Qed.


End Documented.

End InteractiveV2Facts.

(** ** Strings: split, join and replace *)

Module StringFacts.
Import Py More EffFacts.















End StringFacts.

(** ** Properties of the slide assemblers *)

Section Assemblers.
Import Py ReportLab Markup Spec EffFacts.






(** C5: after hands-on blocks were appended, export_prompts_to_markdown
    writes prompts.md as the preamble followed by exactly one section per
    block, in append order; a section is the page-number heading, the
    prompt, byte for byte, between two fence lines, the expected result,
    and a horizontal rule.  The story and the list of prompts are left as
    they were. *)
Theorem export_writes_one_section_per_block
    (styles : gmap string ParagraphStyle) (body heading1 : ParagraphStyle)
    (items : list InteractiveV2.Prompt) (w : InteractiveV2.World) :
  styles !! "BodyText" = Some body ->
  styles !! "Heading1" = Some heading1 ->
  InteractiveV2.ALL_PROMPTS w = [] ->
  let appended := append_hands_on styles items w in
  let exported := InteractiveV2.export_prompts_to_markdown appended.2 in
  appended.1 = inr tt /\
  InteractiveV2.ALL_PROMPTS appended.2 = items /\
  exported.1 = inr tt /\
  InteractiveV2.prompts_md exported.2 =
    Some (prompts_preamble +:+ expected_sections items) /\
  InteractiveV2.story exported.2 = InteractiveV2.story appended.2 /\
  InteractiveV2.ALL_PROMPTS exported.2 = items.
Proof.
  intros Hbody Hheading1 Hempty. cbn zeta.
  assert (exists blocks, grows (append_hands_on styles items) blocks items)
    as [blocks Hgrows].
  { unfold append_hands_on. clear w Hempty.
    induction items as [|item items [blocks IH]]; cbn [for_each].
    - exists []. apply InteractiveV2Facts.V_grows_ret.
    - destruct (InteractiveV2Facts.V_hands_on_slide_grows styles body heading1
                  Hbody Hheading1 (InteractiveV2.item_title item)
                  (InteractiveV2.item_prompt item)
                  (InteractiveV2.item_expected item)
                  (InteractiveV2.item_page item)) as [b Hb].
      exists (b ++ blocks). destruct item as [pg ti pr ex].
      exact (InteractiveV2Facts.V_grows_bind _ _ b [_] blocks items Hb IH). }
  rewrite Hgrows. cbn [fst snd]. unfold extend at 1. cbn [InteractiveV2.ALL_PROMPTS].
  rewrite Hempty, app_nil_l. split; [done|]. split; [done|].
  assert (forall its st ps md,
            for_each its InteractiveV2.export_item
              {| InteractiveV2.story := st;
                 InteractiveV2.ALL_PROMPTS := ps;
                 InteractiveV2.prompts_md := Some md |} =
              (inr tt,
               {| InteractiveV2.story := st;
                  InteractiveV2.ALL_PROMPTS := ps;
                  InteractiveV2.prompts_md :=
                    Some (md +:+ expected_sections its) |})) as Hloop.
  { induction its as [|item its IH]; intros st ps md; cbn [for_each].
    - unfold ret, expected_sections. cbn [foldr]. by rewrite append_nil_r.
    - unfold bind at 1. unfold InteractiveV2.export_item at 1.
      unfold bind, InteractiveV2.write. cbn [InteractiveV2.story
        InteractiveV2.ALL_PROMPTS InteractiveV2.prompts_md default from_option id].
      rewrite IH. unfold expected_sections. cbn [foldr].
      unfold expected_section. by rewrite !append_assoc. }
  unfold InteractiveV2.export_prompts_to_markdown, bind,
    InteractiveV2.open_w, InteractiveV2.write, InteractiveV2.get_ALL_PROMPTS.
  cbn [InteractiveV2.story InteractiveV2.ALL_PROMPTS InteractiveV2.prompts_md
       default from_option id extend].
  rewrite Hempty, app_nil_l, Hloop. cbn [fst snd InteractiveV2.story
    InteractiveV2.ALL_PROMPTS InteractiveV2.prompts_md].
  repeat split.
Qed.

(** C7: every block-append operation of the three scripts (title, section,
    content, two-column, hands-on and code slide) only appends to the story:
    whatever the story held before is still there, unchanged and in the same
    order, as a prefix of the story after the call; and when the call
    returns, what it appended ends with a page break. *)
Theorem block_appends_only_append :
  ((forall styles,
      appends_slide id (Presentation.create_title_slide styles)) /\
   (forall styles title,
      appends_slide id (Presentation.create_section_slide styles title)) /\
   (forall sb styles title items,
      appends_slide id (Presentation.create_content_slide sb styles title items)) /\
   (forall sb styles title lt li rt ri,
      appends_slide id
        (Presentation.create_two_column_slide sb styles title lt li rt ri))) /\
  ((forall styles,
      appends_slide id (Interactive.create_title_slide styles)) /\
   (forall styles title,
      appends_slide id (Interactive.create_section_slide styles title)) /\
   (forall sb styles title items,
      appends_slide id (Interactive.create_content_slide sb styles title items)) /\
   (forall styles title prompt expected,
      appends_slide id
        (Interactive.create_hands_on_slide styles title prompt expected)) /\
   (forall styles title language code,
      appends_slide id (Interactive.create_code_slide styles title language code)) /\
   (forall sb styles title lt li rt ri,
      appends_slide id
        (Interactive.create_two_column_slide sb styles title lt li rt ri))) /\
  ((forall styles,
      appends_slide InteractiveV2.story (InteractiveV2.create_title_slide styles)) /\
   (forall styles title,
      appends_slide InteractiveV2.story
        (InteractiveV2.create_section_slide styles title)) /\
   (forall sb styles title items,
      appends_slide InteractiveV2.story
        (InteractiveV2.create_content_slide sb styles title items)) /\
   (forall styles title prompt expected page_num,
      appends_slide InteractiveV2.story
        (InteractiveV2.create_hands_on_slide styles title prompt expected
                                             page_num)) /\
   (forall up styles title language code,
      appends_slide InteractiveV2.story
        (InteractiveV2.create_code_slide up styles title language code))).
Proof.
  split; [|split].
  - repeat split; intros.
    + apply PresentationFacts.P_title_slide_frame.
    + apply PresentationFacts.P_section_slide_frame.
    + apply PresentationFacts.P_content_slide_frame.
    + apply PresentationFacts.P_two_column_slide_frame.
  - repeat split; intros.
    + apply InteractiveFacts.I_title_slide_frame.
    + apply InteractiveFacts.I_section_slide_frame.
    + apply InteractiveFacts.I_content_slide_frame.
    + apply InteractiveFacts.I_hands_on_slide_frame.
    + apply InteractiveFacts.I_code_slide_frame.
    + apply InteractiveFacts.I_two_column_slide_frame.
  - repeat split; intros.
    + apply InteractiveV2Facts.V_title_slide_frame.
    + apply InteractiveV2Facts.V_section_slide_frame.
    + apply InteractiveV2Facts.V_content_slide_frame.
    + apply InteractiveV2Facts.V_hands_on_slide_frame.
    + apply InteractiveV2Facts.V_code_slide_frame.
Qed.



End Assemblers.

(** ** The theorems at sample inputs *)

Section Witnesses.
Import Py ReportLab Markup Spec Samples.

Example sample_code_lines : List.length (split "010" sample_code) = 22%nat.
Proof. vm_compute. reflexivity. Qed.

Example sample_code_slide_length :
  List.length
    (Interactive.create_code_slide getSampleStyleSheet "Example" "Go"
       sample_code []).2 = 45%nat.
Proof. vm_compute. reflexivity. Qed.

Lemma export_writes_one_section_per_block_witness :
  getSampleStyleSheet !! "BodyText" = Some BodyText /\
  getSampleStyleSheet !! "Heading1" = Some Heading1 /\
  InteractiveV2.ALL_PROMPTS empty_world = [] /\
  InteractiveV2.prompts_md
    (InteractiveV2.export_prompts_to_markdown
       (append_hands_on getSampleStyleSheet sample_prompts empty_world).2).2 =
    Some (prompts_preamble +:+ expected_sections sample_prompts).
Proof.
  split; [reflexivity|]. split; [reflexivity|]. split; [reflexivity|].
  pose proof (export_writes_one_section_per_block getSampleStyleSheet BodyText
                Heading1 sample_prompts empty_world eq_refl eq_refl eq_refl)
    as H.
  cbv zeta in H. exact (proj1 (proj2 (proj2 (proj2 H)))).
Defined.



End Witnesses.

(** * Further properties *)

(** ** The pagination overlay *)

Section OverlayMore.
Import ReportLab Canvas NumberedCanvas NumberedCanvasFacts.
Local Open Scope Z_scope.

Lemma run_app calls1 calls2 self :
  run (calls1 ++ calls2) self = run calls2 (run calls1 self).
Proof. unfold run. apply foldl_app. Qed.

Lemma run_draws ops : forall self,
  _saved_page_states (run (Draw <$> ops) self) = _saved_page_states self /\
  _doc (run (Draw <$> ops) self) = _doc self /\
  _pageNumber (dict (run (Draw <$> ops) self)) = _pageNumber (dict self).
Proof.
  induction ops as [|op ops IH]; intros self; [done|].
  cbn [fmap list_fmap]. rewrite run_cons. cbn [call].
  destruct (IH (draw self op)) as (E1 & E2 & E3).
  destruct (draw_frame self op) as (F1 & _ & F3 & F4).
  by rewrite E1, E2, E3, F1, F3, F4.
Qed.

(** X1: what is drawn after the last page-complete signal never reaches the
    output: save replays the snapshots only, over whatever the canvas
    holds at that moment, so the pages it commits do not depend on the page
    in progress. *)
Theorem save_ignores_page_in_progress :
  (forall (self : Canvas) (d : Attrs),
     Pages (_doc (save (set_dict self d))) = Pages (_doc (save self))) /\
  (forall (calls : list Call) (ops : list DrawOp),
     Pages (_doc (save (run (calls ++ (Draw <$> ops)) NumberedCanvas.__init__))) =
     Pages (_doc (save (run calls NumberedCanvas.__init__)))).
Proof.
  split.
  - intros self d. by rewrite !save_pages.
  - intros calls ops. rewrite run_app, !save_pages.
    destruct (run_draws ops (run calls NumberedCanvas.__init__)) as (-> & -> & _).
    done.
Qed.

Lemma length_append (x y : string) :
  String.length (x +:+ y) = (String.length x + String.length y)%nat.
Proof.
  induction x as [|a x IH]; [reflexivity|].
  change (S (String.length (x +:+ y)) = S (String.length x + String.length y)).
  by rewrite IH.
Qed.

Lemma append_inv_tail (x y b : string) : x +:+ b = y +:+ b -> x = y.
Proof.
  revert y. induction x as [|a x IH]; intros [|c y] H; [done| | |].
  - exfalso. apply (f_equal String.length) in H.
    rewrite !length_append in H. cbn in H. lia.
  - exfalso. apply (f_equal String.length) in H.
    rewrite !length_append in H. cbn in H. lia.
  - change (String a (x +:+ b) = String c (y +:+ b)) in H.
    injection H as -> H. f_equal. by apply IH.
Qed.

Lemma page_text_inj (N k1 k2 : Z) : page_text k1 N = page_text k2 N -> k1 = k2.
Proof.
  unfold page_text. intros H.
  apply (inj (String.append "Page ")) in H.
  apply append_inv_tail in H. by apply (inj pretty) in H.
Qed.

(** X2: no two pages of a document carry the same footer text. *)
Theorem footers_are_pairwise_distinct (calls : list Call) :
  NoDup (footer_text <$> Pages (_doc (save (run calls NumberedCanvas.__init__)))).
Proof.
  destruct (save_after_run calls) as [_ ->].
  apply NoDup_fmap_2; [|apply NoDup_seq].
  intros k1 k2 H. apply (inj Some), page_text_inj in H. lia.
Qed.

(** X3: while pages accumulate, the list of snapshots only grows at its
    end, by one snapshot per showPage and none per drawing call, and the
    page counter advances by one per showPage. *)
Theorem snapshots_are_append_only (calls : list Call) (self : Canvas) :
  _saved_page_states self `prefix_of` _saved_page_states (run calls self) /\
  List.length (_saved_page_states (run calls self)) =
    (List.length (_saved_page_states self) + count_pages calls)%nat /\
  _pageNumber (dict (run calls self)) =
    _pageNumber (dict self) + Z.of_nat (count_pages calls).
Proof.
  split; [|split; [apply run_saved_length|]].
  - revert self. induction calls as [|c calls IH]; intros self; [done|].
    rewrite run_cons. etrans; [|apply IH].
    destruct c as [op|]; cbn [call].
    + by destruct (draw_frame self op) as (_ & _ & -> & _).
    + by exists [dict self].
  - revert self. induction calls as [|c calls IH]; intros self.
    + cbn. lia.
    + rewrite run_cons, IH. destruct c as [op|]; cbn [call count_pages].
      * by destruct (draw_frame self op) as (-> & _).
      * cbn. lia.
Qed.

End OverlayMore.

(** ** Exceptions and frames of the assemblers *)

Module MoreFacts.
Import Py ReportLab Spec More EffFacts.

Lemma bind_raise_l {S A B} (m : Eff S A) (k : A -> Eff S B) (s s' : S) e :
  m s = (inl e, s') -> bind m k s = (inl e, s').
Proof. unfold bind. by intros ->. Qed.

Lemma bind_style_missing {S B} (styles : gmap string ParagraphStyle) name
    (k : ParagraphStyle -> Eff S B) (s : S) :
  styles !! name = None ->
  bind (lift (getitem_style styles name)) k s = (inl (KeyError name), s).
Proof. unfold bind, lift, getitem_style. by intros ->. Qed.

Section Raises.
Context {S : Type} (story : S -> list Flowable).







Lemma raises_style_missing {B} styles name (k : ParagraphStyle -> Eff S B) :
  styles !! name = None ->
  raises story (bind (lift (getitem_style styles name)) k) (KeyError name) [].
Proof.
  intros Hst s. rewrite (bind_style_missing _ _ _ _ Hst). cbn.
  by rewrite app_nil_r.
Qed.


Lemma keeps_ret {A B} (component : S -> B) (a : A) : keeps component (ret a).
Proof. by intros s. Qed.

Lemma keeps_lift {A B} (component : S -> B) (r : Exn + A) :
  keeps component (lift r).
Proof. intros s. by destruct r. Qed.

Lemma keeps_bind {A B C} (component : S -> C) (m : Eff S A) (k : A -> Eff S B) :
  keeps component m -> (forall a, keeps component (k a)) ->
  keeps component (bind m k).
Proof.
  intros Hm Hk s. specialize (Hm s). unfold bind.
  destruct (m s) as [[e|a] s']; [done|].
  specialize (Hk a s'). cbn in *. congruence.
Qed.

Lemma keeps_for_each {A C} (component : S -> C) (xs : list A)
    (body : A -> Eff S unit) :
  (forall x, keeps component (body x)) -> keeps component (for_each xs body).
Proof.
  intros Hb. induction xs as [|x xs IH]; cbn [for_each].
  - apply keeps_ret.
  - apply keeps_bind; auto.
Qed.
End Raises.

End MoreFacts.

(** ** Errors and edges of the slide assemblers *)

Section AssemblersMore.
Import Py ReportLab Markup Spec More EffFacts MoreFacts Samples.

Ltac run_to_lookup H :=
  cbv [Presentation.create_title_slide Presentation.create_section_slide
       Presentation.create_content_slide Presentation.create_two_column_slide
       Interactive.create_title_slide Interactive.create_section_slide
       Interactive.create_content_slide Interactive.create_two_column_slide
       Interactive.create_hands_on_slide Interactive.create_code_slide
       InteractiveV2.create_title_slide InteractiveV2.create_section_slide
       InteractiveV2.create_content_slide InteractiveV2.create_hands_on_slide
       InteractiveV2.create_code_slide
       bind Story.append Story.style InteractiveV2.append InteractiveV2.style
       InteractiveV2.ALL_PROMPTS_append lift getitem_style extend
       InteractiveV2.story InteractiveV2.ALL_PROMPTS InteractiveV2.prompts_md];
  rewrite H; cbv [raise]; rewrite ?app_nil_r; reflexivity.

(** X4: without the style 'Heading1' the content, two-column, hands-on and
    code slides raise KeyError('Heading1') before they append anything:
    the story is left exactly as it was. *)
Theorem missing_Heading1_raises_before_appending
    (sb : PyVal -> string) (up : string -> string)
    (styles : gmap string ParagraphStyle) :
  styles !! "Heading1" = None ->
  (forall title items story,
     Presentation.create_content_slide sb styles title items story =
       (inl (KeyError "Heading1"), story)) /\
  (forall title lt li rt ri story,
     Presentation.create_two_column_slide sb styles title lt li rt ri story =
       (inl (KeyError "Heading1"), story)) /\
  (forall title items story,
     Interactive.create_content_slide sb styles title items story =
       (inl (KeyError "Heading1"), story)) /\
  (forall title prompt expected story,
     Interactive.create_hands_on_slide styles title prompt expected story =
       (inl (KeyError "Heading1"), story)) /\
  (forall title language code story,
     Interactive.create_code_slide styles title language code story =
       (inl (KeyError "Heading1"), story)) /\
  (forall title lt li rt ri story,
     Interactive.create_two_column_slide sb styles title lt li rt ri story =
       (inl (KeyError "Heading1"), story)) /\
  (forall title items w,
     InteractiveV2.create_content_slide sb styles title items w =
       (inl (KeyError "Heading1"), w)) /\
  (forall title language code w,
     InteractiveV2.create_code_slide up styles title language code w =
       (inl (KeyError "Heading1"), w)).
Proof.
  intros H. repeat split; intros; run_to_lookup H.
Qed.

(** X5: create_hands_on_slide of the second interactive script records the
    prompt before it looks up a style: when 'Heading1' is missing the call
    raises KeyError('Heading1'), the story is untouched, and ALL_PROMPTS
    has grown by the block all the same. *)
Theorem hands_on_records_prompt_before_failing
    (styles : gmap string ParagraphStyle) (title prompt expected : string)
    (page_num : Z) (w : InteractiveV2.World) :
  styles !! "Heading1" = None ->
  InteractiveV2.create_hands_on_slide styles title prompt expected page_num w =
    (inl (KeyError "Heading1"),
     extend w []
       [ {| InteractiveV2.item_page := page_num;
            InteractiveV2.item_title := title;
            InteractiveV2.item_prompt := prompt;
            InteractiveV2.item_expected := expected |} ]).
Proof. intros H. run_to_lookup H. Qed.

(** X6: the title slides append their leading spacer before they look up
    the style 'Title': without it they raise KeyError('Title') and leave
    the story one spacer longer, with no page break. *)
Theorem title_slide_fails_after_leading_spacer
    (styles : gmap string ParagraphStyle) :
  styles !! "Title" = None ->
  (forall story,
     Presentation.create_title_slide styles story =
       (inl (KeyError "Title"), story ++ [Spacer 1 (1.5 * inch)])) /\
  (forall story,
     Interactive.create_title_slide styles story =
       (inl (KeyError "Title"), story ++ [Spacer 1 (1.5 * inch)])) /\
  (forall w,
     InteractiveV2.create_title_slide styles w =
       (inl (KeyError "Title"), extend w [Spacer 1 (1.5 * inch)] [])).
Proof.
  intros H. repeat split; intros; run_to_lookup H.
Qed.

(** X7: the section slides append their leading spacer before they look up
    the style 'Normal': without it they raise KeyError('Normal') and leave
    the story one spacer longer, with no page break. *)
Theorem section_slide_fails_after_leading_spacer
    (styles : gmap string ParagraphStyle) (title : string) :
  styles !! "Normal" = None ->
  (forall story,
     Presentation.create_section_slide styles title story =
       (inl (KeyError "Normal"), story ++ [Spacer 1 (1.8 * inch)])) /\
  (forall story,
     Interactive.create_section_slide styles title story =
       (inl (KeyError "Normal"), story ++ [Spacer 1 (1.8 * inch)])) /\
  (forall w,
     InteractiveV2.create_section_slide styles title w =
       (inl (KeyError "Normal"), extend w [Spacer 1 (1.8 * inch)] [])).
Proof.
  intros H. repeat split; intros; run_to_lookup H.
Qed.

End AssemblersMore.

Section TuplesMore.
Import Py ReportLab Markup Spec More EffFacts MoreFacts Samples.



Section Malformed.
Context (sb : PyVal -> string) (styles : gmap string ParagraphStyle).
Context (body heading1 : ParagraphStyle).
Hypothesis Hbody : styles !! "BodyText" = Some body.
Hypothesis Hheading1 : styles !! "Heading1" = Some heading1.









End Malformed.



Example string_in_second_place :
  (Presentation.content_item sample_str getSampleStyleSheet
     (VTuple [VStr "Tools"; VStr "Go"]) []).2 =
  expected_item_blocks "• " "   ◦ " BodyText (Group "Tools" ["G"; "o"]).
Proof. vm_compute. reflexivity. Qed.

End TuplesMore.

Section ColumnsMore.
Import Py ReportLab Markup Spec More EffFacts MoreFacts Samples.



End ColumnsMore.

Section BreaksMore.
Import Py ReportLab Markup Spec More EffFacts MoreFacts Samples.







End BreaksMore.

Section PromptsMore.
Import Py ReportLab Markup Spec More EffFacts MoreFacts Samples.

Ltac keeps_step :=
  repeat first
    [ apply keeps_ret
    | apply keeps_lift
    | apply keeps_for_each; intros ?
    | apply keeps_bind; [|intros ?]
    | progress cbv zeta
    | match goal with
      | |- keeps _ (if ?b then _ else _) => destruct b
      end
    | solve [intros ?; reflexivity] ].

(** X12: of the assemblers of the second interactive script only
    create_hands_on_slide changes ALL_PROMPTS, and none of them touches
    prompts.md, whether the call returns or raises. *)
Theorem only_hands_on_changes_the_prompts :
  (forall styles,
     keeps InteractiveV2.ALL_PROMPTS (InteractiveV2.create_title_slide styles) /\
     keeps InteractiveV2.prompts_md (InteractiveV2.create_title_slide styles)) /\
  (forall styles title,
     keeps InteractiveV2.ALL_PROMPTS
       (InteractiveV2.create_section_slide styles title) /\
     keeps InteractiveV2.prompts_md
       (InteractiveV2.create_section_slide styles title)) /\
  (forall sb styles title items,
     keeps InteractiveV2.ALL_PROMPTS
       (InteractiveV2.create_content_slide sb styles title items) /\
     keeps InteractiveV2.prompts_md
       (InteractiveV2.create_content_slide sb styles title items)) /\
  (forall up styles title language code,
     keeps InteractiveV2.ALL_PROMPTS
       (InteractiveV2.create_code_slide up styles title language code) /\
     keeps InteractiveV2.prompts_md
       (InteractiveV2.create_code_slide up styles title language code)) /\
  (forall styles title prompt expected page_num,
     keeps InteractiveV2.prompts_md
       (InteractiveV2.create_hands_on_slide styles title prompt expected
                                            page_num)).
Proof.
  repeat split.
  all: unfold InteractiveV2.create_title_slide, InteractiveV2.create_section_slide,
         InteractiveV2.create_content_slide, InteractiveV2.content_item,
         InteractiveV2.create_code_slide, InteractiveV2.create_hands_on_slide,
         InteractiveV2.style.
  all: intros; keeps_step.
Qed.

Lemma export_item_writes (item : InteractiveV2.Prompt) st ps md :
  InteractiveV2.export_item item
    {| InteractiveV2.story := st; InteractiveV2.ALL_PROMPTS := ps;
       InteractiveV2.prompts_md := Some md |} =
  (inr tt,
   {| InteractiveV2.story := st; InteractiveV2.ALL_PROMPTS := ps;
      InteractiveV2.prompts_md :=
        Some (md +:+ expected_section (InteractiveV2.item_page item)
                       (InteractiveV2.item_title item)
                       (InteractiveV2.item_prompt item)
                       (InteractiveV2.item_expected item)) |}).
Proof.
  unfold InteractiveV2.export_item, bind, InteractiveV2.write.
  cbn [InteractiveV2.story InteractiveV2.ALL_PROMPTS InteractiveV2.prompts_md
       default from_option id].
  unfold expected_section. by rewrite !append_assoc.
Qed.

Lemma export_loop_writes (items : list InteractiveV2.Prompt) : forall st ps md,
  for_each items InteractiveV2.export_item
    {| InteractiveV2.story := st; InteractiveV2.ALL_PROMPTS := ps;
       InteractiveV2.prompts_md := Some md |} =
  (inr tt,
   {| InteractiveV2.story := st; InteractiveV2.ALL_PROMPTS := ps;
      InteractiveV2.prompts_md := Some (md +:+ expected_sections items) |}).
Proof.
  induction items as [|item items IH]; intros st ps md; cbn [for_each].
  - unfold ret, expected_sections. cbn [foldr]. by rewrite append_nil_r.
  - unfold bind at 1. rewrite export_item_writes, IH.
    unfold expected_sections. cbn [foldr]. by rewrite append_assoc.
Qed.

Lemma export_writes (w : InteractiveV2.World) :
  InteractiveV2.export_prompts_to_markdown w =
    (inr tt,
     {| InteractiveV2.story := InteractiveV2.story w;
        InteractiveV2.ALL_PROMPTS := InteractiveV2.ALL_PROMPTS w;
        InteractiveV2.prompts_md :=
          Some (prompts_preamble +:+
                expected_sections (InteractiveV2.ALL_PROMPTS w)) |}).
Proof.
  unfold InteractiveV2.export_prompts_to_markdown, bind,
    InteractiveV2.open_w, InteractiveV2.write, InteractiveV2.get_ALL_PROMPTS.
  cbn [InteractiveV2.story InteractiveV2.ALL_PROMPTS InteractiveV2.prompts_md
       default from_option id].
  by rewrite export_loop_writes.
Qed.

(** X13: export_prompts_to_markdown never fails and rewrites prompts.md from
    scratch: whatever the file held before, it holds afterwards the
    preamble and the sections of ALL_PROMPTS, so exporting twice gives the
    same file as exporting once, and with an empty ALL_PROMPTS the file is
    the preamble alone.  The story and ALL_PROMPTS are left as they were. *)
Theorem export_rewrites_the_file (w : InteractiveV2.World) :
  InteractiveV2.export_prompts_to_markdown w =
    (inr tt,
     {| InteractiveV2.story := InteractiveV2.story w;
        InteractiveV2.ALL_PROMPTS := InteractiveV2.ALL_PROMPTS w;
        InteractiveV2.prompts_md :=
          Some (prompts_preamble +:+
                expected_sections (InteractiveV2.ALL_PROMPTS w)) |}) /\
  InteractiveV2.export_prompts_to_markdown
    (InteractiveV2.export_prompts_to_markdown w).2 =
  InteractiveV2.export_prompts_to_markdown w /\
  (forall before : option string,
     InteractiveV2.prompts_md
       (InteractiveV2.export_prompts_to_markdown
          {| InteractiveV2.story := InteractiveV2.story w;
             InteractiveV2.ALL_PROMPTS := InteractiveV2.ALL_PROMPTS w;
             InteractiveV2.prompts_md := before |}).2 =
     InteractiveV2.prompts_md (InteractiveV2.export_prompts_to_markdown w).2) /\
  (InteractiveV2.ALL_PROMPTS w = [] ->
   InteractiveV2.prompts_md (InteractiveV2.export_prompts_to_markdown w).2 =
     Some prompts_preamble).
Proof.
  split; [apply export_writes|]. split; [|split].
  - by rewrite !export_writes.
  - intros before. by rewrite !export_writes.
  - intros Hempty. rewrite export_writes, Hempty. cbn.
    unfold expected_sections. cbn [foldr]. by rewrite append_nil_r.
Qed.

Lemma expected_sections_app (ps items : list InteractiveV2.Prompt) :
  expected_sections (ps ++ items) =
    expected_sections ps +:+ expected_sections items.
Proof.
  unfold expected_sections. induction ps as [|p ps IH]; cbn [foldr app]; [done|].
  by rewrite IH, append_assoc.
Qed.

Lemma append_hands_on_grows styles body heading1 items :
  styles !! "BodyText" = Some body -> styles !! "Heading1" = Some heading1 ->
  exists blocks, grows (append_hands_on styles items) blocks items.
Proof.
  intros Hbody Hheading1. unfold append_hands_on.
  induction items as [|item items [blocks IH]]; cbn [for_each].
  - exists []. apply InteractiveV2Facts.V_grows_ret.
  - destruct (InteractiveV2Facts.V_hands_on_slide_grows styles body heading1
                Hbody Hheading1 (InteractiveV2.item_title item)
                (InteractiveV2.item_prompt item)
                (InteractiveV2.item_expected item)
                (InteractiveV2.item_page item)) as [b Hb].
    exists (b ++ blocks). destruct item as [pg ti pr ex].
    exact (InteractiveV2Facts.V_grows_bind _ _ b [_] blocks items Hb IH).
Qed.

(** X14: ALL_PROMPTS is never cleared.  Hands-on blocks appended when the
    list already holds earlier blocks come after them, and the export then
    writes the sections of the earlier blocks followed by those of the new
    ones; appending the same blocks twice writes every section twice. *)
Theorem prompts_accumulate_across_builds
    (styles : gmap string ParagraphStyle) (body heading1 : ParagraphStyle)
    (items : list InteractiveV2.Prompt) (w : InteractiveV2.World) :
  styles !! "BodyText" = Some body ->
  styles !! "Heading1" = Some heading1 ->
  let once := (append_hands_on styles items w).2 in
  let twice := (append_hands_on styles items once).2 in
  InteractiveV2.ALL_PROMPTS once = InteractiveV2.ALL_PROMPTS w ++ items /\
  InteractiveV2.prompts_md (InteractiveV2.export_prompts_to_markdown once).2 =
    Some (prompts_preamble +:+
          expected_sections (InteractiveV2.ALL_PROMPTS w) +:+
          expected_sections items) /\
  InteractiveV2.prompts_md (InteractiveV2.export_prompts_to_markdown twice).2 =
    Some (prompts_preamble +:+
          expected_sections (InteractiveV2.ALL_PROMPTS w) +:+
          expected_sections items +:+ expected_sections items).
Proof.
  intros Hbody Hheading1. cbv zeta.
  destruct (append_hands_on_grows styles body heading1 items Hbody Hheading1)
    as [blocks Hgrows].
  rewrite !Hgrows, !export_writes. cbn [snd extend InteractiveV2.ALL_PROMPTS
    InteractiveV2.prompts_md].
  by rewrite !expected_sections_app, ?append_assoc.
Qed.

End PromptsMore.


Section CodeMore.
Import Py ReportLab Markup Spec More EffFacts MoreFacts StringFacts Samples.





End CodeMore.

(** ** The further properties at sample inputs *)

Section MoreWitnesses.
Import Py ReportLab Markup Spec More Samples.

Lemma missing_Heading1_raises_before_appending_witness :
  (∅ : gmap string ParagraphStyle) !! "Heading1" = None /\
  Presentation.create_content_slide sample_str ∅ "Agenda" [VStr "first"] [] =
    (inl (KeyError "Heading1"), []).
Proof.
  split; [reflexivity|].
  exact (proj1 (missing_Heading1_raises_before_appending sample_str sample_upper
                  ∅ eq_refl) "Agenda" [VStr "first"] []).
Defined.

Lemma hands_on_records_prompt_before_failing_witness :
  (∅ : gmap string ParagraphStyle) !! "Heading1" = None /\
  InteractiveV2.create_hands_on_slide ∅ "Add a Feature" "Add a health endpoint"
    "A passing test" 12 empty_world =
    (inl (KeyError "Heading1"),
     extend empty_world []
       [ {| InteractiveV2.item_page := 12;
            InteractiveV2.item_title := "Add a Feature";
            InteractiveV2.item_prompt := "Add a health endpoint";
            InteractiveV2.item_expected := "A passing test" |} ]).
Proof.
  split; [reflexivity|].
  exact (hands_on_records_prompt_before_failing ∅ "Add a Feature"
           "Add a health endpoint" "A passing test" 12 empty_world eq_refl).
Defined.

Lemma title_slide_fails_after_leading_spacer_witness :
  (∅ : gmap string ParagraphStyle) !! "Title" = None /\
  Presentation.create_title_slide ∅ [] =
    (inl (KeyError "Title"), [] ++ [Spacer 1 (1.5 * inch)]).
Proof.
  split; [reflexivity|].
  exact (proj1 (title_slide_fails_after_leading_spacer ∅ eq_refl) []).
Defined.

Lemma section_slide_fails_after_leading_spacer_witness :
  (∅ : gmap string ParagraphStyle) !! "Normal" = None /\
  Presentation.create_section_slide ∅ "Part 1" [] =
    (inl (KeyError "Normal"), [] ++ [Spacer 1 (1.8 * inch)]).
Proof.
  split; [reflexivity|].
  exact (proj1 (section_slide_fails_after_leading_spacer ∅ "Part 1" eq_refl) []).
Defined.





Lemma prompts_accumulate_across_builds_witness :
  getSampleStyleSheet !! "BodyText" = Some BodyText /\
  getSampleStyleSheet !! "Heading1" = Some Heading1 /\
  InteractiveV2.ALL_PROMPTS
    (append_hands_on getSampleStyleSheet sample_prompts
       (append_hands_on getSampleStyleSheet sample_prompts empty_world).2).2 =
  InteractiveV2.ALL_PROMPTS
    (append_hands_on getSampleStyleSheet sample_prompts empty_world).2
  ++ sample_prompts.
Proof.
  split; [reflexivity|]. split; [reflexivity|].
  pose proof (prompts_accumulate_across_builds getSampleStyleSheet BodyText
                Heading1 sample_prompts
                (append_hands_on getSampleStyleSheet sample_prompts empty_world).2
                eq_refl eq_refl) as H.
  cbv zeta in H. exact (proj1 H).
Defined.




End MoreWitnesses.

(** * The paragraph constructor *)

Module PlatypusFacts.
Import Py ReportLab Markup Platypus Scanning Outcome More EffFacts StringFacts.

(** ** White space outside ASCII *)













(** ** Cleaning and parsing in one pass *)






(** ** Well-formed pieces of markup *)














(** ** The pieces of a split text *)




(** ** Calls that deliver *)



Section Delivers.
Context {S : Type} (story : S -> list Flowable).






End Delivers.

End PlatypusFacts.

(** ** The assemblers on plain text *)

Module DeliveryFacts.
Import Py ReportLab Markup Platypus Scanning Outcome Spec More EffFacts
  StringFacts PlatypusFacts.
Local Open Scope eff_scope.









Section Presentation.
Import Story Presentation.
Context (sb : PyVal -> string) (styles : gmap string ParagraphStyle).
Context (normal body title_st heading1 : ParagraphStyle).
Hypothesis Hnormal : styles !! "Normal" = Some normal.
Hypothesis Hbody : styles !! "BodyText" = Some body.
Hypothesis Htitle : styles !! "Title" = Some title_st.
Hypothesis Hheading1 : styles !! "Heading1" = Some heading1.





End Presentation.

Section Interactive.
Import Story Interactive.
Context (sb : PyVal -> string) (styles : gmap string ParagraphStyle).
Context (normal body title_st heading1 : ParagraphStyle).
Hypothesis Hnormal : styles !! "Normal" = Some normal.
Hypothesis Hbody : styles !! "BodyText" = Some body.
Hypothesis Htitle : styles !! "Title" = Some title_st.
Hypothesis Hheading1 : styles !! "Heading1" = Some heading1.







End Interactive.




Section InteractiveV2.
Import InteractiveV2.
Context (sb : PyVal -> string) (up : string -> string).
Context (styles : gmap string ParagraphStyle).
Context (normal body title_st heading1 : ParagraphStyle).
Hypothesis Hnormal : styles !! "Normal" = Some normal.
Hypothesis Hbody : styles !! "BodyText" = Some body.
Hypothesis Htitle : styles !! "Title" = Some title_st.
Hypothesis Hheading1 : styles !! "Heading1" = Some heading1.






End InteractiveV2.

End DeliveryFacts.

(** ** Failure and the shapes of the arguments *)

Section Failure.
Import Py ReportLab Markup Platypus Outcome Spec Samples EffFacts
  PlatypusFacts DeliveryFacts.




(** C6: at a slide with a top-level bullet and a heading with two
    sub-items, create_content_slide hands reportlab the sub-items in input
    order, each in size 12 where the bullet has size 14, and with the same
    style BodyText as the bullet, the indent being three spaces in front of
    the marker in the text of the paragraph.  The paragraph constructor
    collapses white space: of the three spaces it keeps one, and the
    paragraph it builds is the one it builds for the text with a single
    space.  The three-space indent of the sub-items does not survive the
    constructor. *)
Theorem sub_item_indent_is_collapsed :
  let run_of (color size body : string) : string :=
    "<font color=" +:+ dq +:+ color +:+ dq +:+ " size=" +:+ dq +:+ size
      +:+ dq +:+ ">" +:+ body +:+ "</font>" in
  let bullet := run_of "#5B5B5B" "14" "• first" in
  let sub_one := run_of "#666666" "12" "   ◦ one" in
  let sub_two := run_of "#666666" "12" "   ◦ two" in
  Presentation.create_content_slide sample_str getSampleStyleSheet "Agenda"
    [VStr "first";
     VTuple [VStr "This means:"; VList [VStr "one"; VStr "two"]]] [] =
    (inr tt,
     [Paragraph (run_of "#003E7E" "28" "<b>Agenda</b>") Heading1;
      Spacer 1 (0.3 * inch);
      Paragraph bullet BodyText;
      Spacer 1 (0.15 * inch);
      Paragraph (run_of "#5B5B5B" "14" "<b>This means:</b>") BodyText;
      Spacer 1 (0.1 * inch);
      Paragraph sub_one BodyText;
      Spacer 1 (0.08 * inch);
      Paragraph sub_two BodyText;
      Spacer 1 (0.08 * inch);
      Spacer 1 (0.1 * inch);
      PageBreak]) /\
  Paragraph__init__ bullet = Built bullet /\
  Paragraph__init__ sub_one = Built (run_of "#666666" "12" " ◦ one") /\
  Paragraph__init__ sub_two = Built (run_of "#666666" "12" " ◦ two") /\
  Paragraph__init__ sub_one =
    Paragraph__init__ (run_of "#666666" "12" " ◦ one") /\
  Paragraph__init__ sub_two =
    Paragraph__init__ (run_of "#666666" "12" " ◦ two").
Proof. cbv zeta. repeat split; vm_compute; reflexivity. Qed.



End Failure.
